(** * SEO head checker: the asynchronous task lifecycle of [views.py]

    A shallow embedding of the four request handlers of [src/views.py]
    ([start_sitemap_processing] with its nested worker [process_task],
    [get_task_status], [download_task_file]) over an explicit model of the
    Django cache, the local file system and the worker pool, followed by the
    properties of the task lifecycle.

    Python dictionaries are finite maps from strings, exceptions are values
    of an error monad, and every handler is a state transformer on [World]. *)

From stdpp Require Import gmap strings list fin_maps.
From Stdlib Require Import ZArith Ascii String.

Open Scope string_scope.
Open Scope Z_scope.

(** ** Python values, exceptions and the handler monad *)

(** The values stored in a task record: strings (status, file, error) and
    integers (progress). *)
Inductive Val :=
  | VStr (s : string)
  | VInt (n : Z).

Global Instance Val_eq_dec : EqDecision Val.
Proof. solve_decision. Defined.

(** A raised exception: its class name and the text [str(e)] gives.  Only
    subclasses of [Exception] are modelled, so [except Exception] catches
    every [PyExn]. *)
Inductive PyExn := Exn (cls : string) (msg : string).

Definition str (e : PyExn) : string :=
  match e with Exn _ msg => msg end.

Inductive PyResult (A : Type) :=
  | Ok (a : A)
  | Raise (e : PyExn).
Arguments Ok {A} a.
Arguments Raise {A} e.

(** Code that reads and writes a state [S] and may raise. *)
Definition M (S A : Type) : Type := S → PyResult A * S.

Definition ret {S A} (a : A) : M S A := λ s, (Ok a, s).

Definition raise {S A} (e : PyExn) : M S A := λ s, (Raise e, s).

Definition bind {S A B} (m : M S A) (k : A → M S B) : M S B :=
  λ s, match m s with
       | (Ok a, s') => k a s'
       | (Raise e, s') => (Raise e, s')
       end.

(** A pure call that may raise, such as [json.loads]. *)
Definition call {S A} (r : PyResult A) : M S A := λ s, (r, s).

(** [try: body / except Exception as e: handler e]. *)
Definition try_except {S A} (body : M S A) (handler : PyExn → M S A) : M S A :=
  λ s, match body s with
       | (Ok a, s') => (Ok a, s')
       | (Raise e, s') => handler e s'
       end.

(** [try: body / finally: fin]: [fin] always runs; when it raises, its
    exception replaces the outcome of [body]. *)
Definition try_finally {S A} (body : M S A) (fin : M S unit) : M S A :=
  λ s, match body s with
       | (r, s') =>
           match fin s' with
           | (Ok _, s'') => (r, s'')
           | (Raise e, s'') => (Raise e, s'')
           end
       end.

Notation "x <- m ;; k" := (bind m (λ x, k))
  (at level 100, m at next level, right associativity,
   format "'[v' x  <-  m  ;;  '/' k ']'").
Notation "m ;;; k" := (bind m (λ _, k))
  (at level 100, right associativity, format "'[v' m  ;;;  '/' k ']'").

(** ** The world: cache, file system, clock, worker pool *)

Definition Bytes : Type := list Byte.byte.

(** One cache entry: the stored dictionary and the instant it expires. *)
Record Entry := mkEntry {
  value : gmap string Val;
  expires_at : Z
}.

(** A unit of work handed to the thread pool: the two variables the closure
    [process_task] captures. *)
Record Job := mkJob {
  job_id : string;
  job_url : string
}.

Global Instance Entry_eq_dec : EqDecision Entry.
Proof. solve_decision. Defined.
Global Instance Job_eq_dec : EqDecision Job.
Proof. solve_decision. Defined.

(** [cache] is Django's cache, [fs] the regular files on local storage,
    [now] the clock in seconds, [pool] the work submitted to thread pools
    and not finished yet, [drawn] the identifiers [uuid.uuid4()] has
    returned so far. *)
Record World := mkWorld {
  cache : gmap string Entry;
  fs : gmap string Bytes;
  now : Z;
  pool : list Job;
  drawn : gset string
}.

Definition with_cache (c : gmap string Entry) (w : World) : World :=
  mkWorld c (fs w) (now w) (pool w) (drawn w).
Definition with_fs (f : gmap string Bytes) (w : World) : World :=
  mkWorld (cache w) f (now w) (pool w) (drawn w).
Definition with_now (t : Z) (w : World) : World :=
  mkWorld (cache w) (fs w) t (pool w) (drawn w).
Definition with_pool (p : list Job) (w : World) : World :=
  mkWorld (cache w) (fs w) (now w) p (drawn w).
Definition with_drawn (d : gset string) (w : World) : World :=
  mkWorld (cache w) (fs w) (now w) (pool w) d.

(** *** Django's cache API *)

(** [cache.set(key, value, timeout=t)]: stores [value] under [key], whatever
    was there, to expire [t] seconds from now. *)
Definition cache_set (key : string) (v : gmap string Val) (timeout : Z)
  : M World unit :=
  λ w, (Ok (), with_cache (<[key := mkEntry v (now w + timeout)]> (cache w)) w).

(** What a reader sees under [key] at time [t]: nothing when the key is
    absent or its entry has expired. *)
Definition live (c : gmap string Entry) (t : Z) (key : string)
  : option (gmap string Val) :=
  match c !! key with
  | Some e => if bool_decide (t < expires_at e) then Some (value e) else None
  | None => None
  end.

(** [cache.get(key)]: [None] when there is no live entry. *)
Definition cache_get (key : string) : M World (option (gmap string Val)) :=
  λ w, (Ok (live (cache w) (now w) key), w).

(** [cache.delete(key)]. *)
Definition cache_delete (key : string) : M World unit :=
  λ w, (Ok (), with_cache (delete key (cache w)) w).

(** *** The file system *)

Definition FileNotFoundError (p : string) : PyExn :=
  Exn "FileNotFoundError" ("No such file or directory: " ++ p).

(** The regular file a path names; the empty path names none. *)
Definition lookup_file (f : gmap string Bytes) (p : string) : option Bytes :=
  if bool_decide (p = "") then None else f !! p.

(** [os.path.exists(p)].  An integer argument names a file descriptor; the
    model has no descriptor table and answers [False] for it. *)
Definition os_path_exists (p : Val) : M World bool :=
  λ w, (Ok match p with
           | VStr path => bool_decide (is_Some (lookup_file (fs w) path))
           | VInt _ => false
           end, w).

(** [open(p, "rb")] followed by reading the file to its end. *)
Definition open_rb (p : string) : M World Bytes :=
  λ w, match lookup_file (fs w) p with
       | Some content => (Ok content, w)
       | None => (Raise (FileNotFoundError p), w)
       end.

(** [os.remove(p)]. *)
Definition os_remove (p : string) : M World unit :=
  λ w, match lookup_file (fs w) p with
       | Some _ => (Ok (), with_fs (delete p (fs w)) w)
       | None => (Raise (FileNotFoundError p), w)
       end.

(** [gc.collect()] has no effect on the modelled state. *)
Definition gc_collect : M World unit := ret ().

(** [str(uuid.uuid4())]: the identifier drawn, [u], is an input of the
    model; the draw is recorded in [drawn]. *)
Definition uuid4 (u : string) : M World string :=
  λ w, (Ok u, with_drawn ({[u]} ∪ drawn w) w).

(** [ThreadPoolExecutor().submit(job)]: the job is queued and the call
    returns at once; whatever the job raises later stays in its future. *)
Definition executor_submit (j : Job) : M World unit :=
  λ w, (Ok (), with_pool (pool w ++ [j]) w).

(** ** HTTP requests and responses *)

Record HttpRequest := mkRequest {
  method : string;
  body : string
}.

Inductive Content :=
  | JsonContent (d : gmap string Val)
  | FileContent (b : Bytes).

Record HttpResponse := mkResponse {
  status_code : Z;
  content_type : string;
  headers : list (string * string);
  content : Content
}.

(** [JsonResponse(d, status=s)]. *)
Definition JsonResponse (d : gmap string Val) (status : Z) : HttpResponse :=
  mkResponse status "application/json" [] (JsonContent d).

(** [os.path.basename(p)]: what follows the last slash of [p]. *)
Fixpoint basename_from (acc p : string) : string :=
  match p with
  | EmptyString => acc
  | String c p' =>
      if Ascii.eqb c "/"%char then basename_from "" p'
      else basename_from (acc ++ String c "") p'
  end.

Definition basename (p : string) : string := basename_from "" p.

Definition dquote : string := String "034"%char "".

(** The header value [f'attachment; filename="{os.path.basename(p)}"']. *)
Definition content_disposition (p : string) : string :=
  "attachment; filename=" ++ dquote ++ basename p ++ dquote.

(** ** Parsed JSON *)

#[warnings="-register-all"]
Inductive Json :=
  | JNull
  | JBool (b : bool)
  | JNum (n : Z)
  | JStr (s : string)
  | JArr (xs : list Json)
  | JObj (kvs : list (string * Json)).

Fixpoint assoc (k : string) (kvs : list (string * Json)) : option Json :=
  match kvs with
  | [] => None
  | (k', v) :: rest => if bool_decide (k' = k) then Some v else assoc k rest
  end.

(** [data.get(k)]: the value under [k], [None] when the key is missing, and
    an [AttributeError] when [data] is not a dictionary. *)
Definition py_get (data : Json) (k : string) : PyResult Json :=
  match data with
  | JObj kvs => Ok (default JNull (assoc k kvs))
  | _ => Raise (Exn "AttributeError" "object has no attribute 'get'")
  end.

(** ** The pipeline's collaborators

    [fetch_sitemap_urls], [process_sitemap_urls] and [save_results_to_csv]
    are imported by [views.py]; what they return in one run of the pipeline
    is given by a [Run]. *)

Definition Results : Type := list (gmap string Val).

Record Run := mkRun {
  fetch_out : PyResult (list string);
  progress_out : list Z;
  process_out : PyResult Results;
  save_out : PyResult (string * Bytes)
}.

(** [fetch_sitemap_urls(sitemap_url)]: a network read. *)
Definition fetch_sitemap_urls (run : Run) (sitemap_url : string)
  : M World (list string) :=
  call (fetch_out run).

(** Modelled from the spec: the body of [process_sitemap_urls] is not part
    of the sources; while it advances it reports
    [{status: processing, progress: p}] for its task into the store, under
    the store's fixed time-to-live. *)
Definition report_progress (task_id : string) (p : Z) : M World unit :=
  cache_set task_id {[ "status" := VStr "processing"; "progress" := VInt p ]} 1800.

Fixpoint report_all (task_id : string) (ps : list Z) : M World unit :=
  match ps with
  | [] => ret ()
  | p :: ps' => report_progress task_id p ;;; report_all task_id ps'
  end.

(** [process_sitemap_urls(urls, max_workers=5, task_id=task_id)]. *)
Definition process_sitemap_urls (run : Run) (urls : list string)
    (max_workers : Z) (task_id : string) : M World Results :=
  report_all task_id (progress_out run) ;;;
  call (process_out run).

(** [save_results_to_csv(results, task_id)]: writes the artifact and
    returns its path. *)
Definition save_results_to_csv (run : Run) (results : Results)
    (task_id : string) : M World string :=
  match save_out run with
  | Ok (path, bytes) => λ w, (Ok path, with_fs (<[path := bytes]> (fs w)) w)
  | Raise e => raise e
  end.

(** ** The worker: [process_task] *)

(** The frame of one call of [process_task]: the world and the two local
    variables its [finally] block deletes. *)
Record Frame := mkFrame {
  world : World;
  urls : option (list string);
  results : option Results
}.

Definition lift {A} (m : M World A) : M Frame A :=
  λ f, match m (world f) with
       | (r, w') => (r, mkFrame w' (urls f) (results f))
       end.

Definition assign_urls (v : list string) : M Frame unit :=
  λ f, (Ok (), mkFrame (world f) (Some v) (results f)).

Definition assign_results (v : Results) : M Frame unit :=
  λ f, (Ok (), mkFrame (world f) (urls f) (Some v)).

Definition UnboundLocalError (name : string) : PyExn :=
  Exn "UnboundLocalError"
      ("cannot access local variable '" ++ name
       ++ "' where it is not associated with a value").

(** [del urls]: raises when the name was never bound. *)
Definition del_urls : M Frame unit :=
  λ f, match urls f with
       | Some _ => (Ok (), mkFrame (world f) None (results f))
       | None => (Raise (UnboundLocalError "urls"), f)
       end.

(** [del results]. *)
Definition del_results : M Frame unit :=
  λ f, match results f with
       | Some _ => (Ok (), mkFrame (world f) (urls f) None)
       | None => (Raise (UnboundLocalError "results"), f)
       end.

Definition completed_record (file_path : string) : gmap string Val :=
  {[ "status" := VStr "completed"; "file" := VStr file_path ]}.

Definition error_record (message : string) : gmap string Val :=
  {[ "status" := VStr "error"; "error" := VStr message ]}.

(** The statements of [process_task], in its own frame. *)
Definition process_task_body (sitemap_url task_id : string) (run : Run)
  : M Frame unit :=
  try_finally
    (try_except
       (us <- lift (fetch_sitemap_urls run sitemap_url) ;;
        assign_urls us ;;;
        rs <- lift (process_sitemap_urls run us 5 task_id) ;;
        assign_results rs ;;;
        file_path <- lift (save_results_to_csv run rs task_id) ;;
        lift (cache_set task_id (completed_record file_path) 1800))
       (λ e, lift (cache_set task_id (error_record (str e)) 1800)))
    (del_urls ;;;
     del_results ;;;
     lift gc_collect).

(** A call of [process_task]: the result is what the call raises, if
    anything. *)
Definition process_task (sitemap_url task_id : string) (run : Run)
  : M World unit :=
  λ w, match process_task_body sitemap_url task_id run (mkFrame w None None) with
       | (r, f) => (r, world f)
       end.

(** ** The request handlers *)

(** [not task] for the result of [cache.get]: true for [None] and for the
    empty dictionary. *)
Definition falsy_task (task : option (gmap string Val)) : bool :=
  match task with
  | None => true
  | Some d => bool_decide (d = ∅)
  end.

(** [not file_path] for a value [task.get("file")] found: true for the
    empty string and for zero. *)
Definition falsy_val (v : Val) : bool :=
  match v with
  | VStr s => bool_decide (s = "")
  | VInt n => bool_decide (n = 0)
  end.

(** [get_task_status(request, task_id)]. *)
Definition get_task_status (task_id : string) : M World HttpResponse :=
  task <- cache_get task_id ;;
  if falsy_task task then
    ret (JsonResponse {[ "error" := VStr "Task not found" ]} 404)
  else
    ret (JsonResponse (default ∅ task) 200).

Definition file_not_found : HttpResponse :=
  JsonResponse {[ "error" := VStr "File not found" ]} 404.

(** [download_task_file(request, task_id)].  [HttpResponse(file, ...)]
    reads the open file to its end when it is built, so the response holds
    the bytes before [os.remove] runs. *)
Definition download_task_file (task_id : string) : M World HttpResponse :=
  task <- cache_get task_id ;;
  if falsy_task task
     || bool_decide (default ∅ task !! "status" ≠ Some (VStr "completed")) then
    ret (JsonResponse {[ "error" := VStr "File not ready or task not found" ]} 404)
  else
    match default ∅ task !! "file" with
    | None => ret file_not_found
    | Some file_path =>
        if falsy_val file_path then ret file_not_found
        else
          found <- os_path_exists file_path ;;
          if negb found then ret file_not_found
          else
            match file_path with
            | VStr path =>
                file <- open_rb path ;;
                let response :=
                  mkResponse 200 "application/octet-stream"
                    [("Content-Disposition", content_disposition path)]
                    (FileContent file) in
                os_remove path ;;;
                cache_delete task_id ;;;
                gc_collect ;;;
                ret response
            | VInt _ =>
                raise (Exn "TypeError" "expected str, bytes or os.PathLike object")
            end
    end.

Definition pending_record : gmap string Val :=
  {[ "status" := VStr "pending"; "progress" := VInt 0 ]}.

Section Handlers.

(** [json.loads] and [normalize_url] are functions of their argument
    alone; [views.py] imports both. *)
Variable json_loads : string → PyResult Json.
Variable normalize_url : Json → PyResult string.

(** [start_sitemap_processing(request)]; [u] is the identifier
    [uuid.uuid4()] returns if it is called.  The nested function it defines
    is [process_task] above, applied to the two variables it captures when
    the pooled job runs. *)
Definition start_sitemap_processing (request : HttpRequest) (u : string)
  : M World HttpResponse :=
  if bool_decide (method request = "POST") then
    try_except
      (data <- call (json_loads (body request)) ;;
       raw <- call (py_get data "sitemap_url") ;;
       sitemap_url <- call (normalize_url raw) ;;
       task_id <- uuid4 u ;;
       cache_set task_id pending_record 1800 ;;;
       executor_submit (mkJob task_id sitemap_url) ;;;
       ret (JsonResponse {[ "task_id" := VStr task_id ]} 202))
      (λ e, ret (JsonResponse {[ "error" := VStr (str e) ]} 400))
  else
    ret (JsonResponse {[ "error" := VStr "Invalid request method" ]} 405).

(** The URL a request asks for: the three calls that can fail before a
    task is created. *)
Definition requested_url (request : HttpRequest) : PyResult string :=
  match json_loads (body request) with
  | Ok data =>
      match py_get data "sitemap_url" with
      | Ok raw => normalize_url raw
      | Raise e => Raise e
      end
  | Raise e => Raise e
  end.

(** ** The running system

    Requests arrive and pooled jobs advance in any interleaving.  An event
    is one request handled, one progress report of a job still in the
    pool, the rest of a job's pipeline, or the passing of time.  [EFinish]
    runs [process_task] with the outcomes of the collaborators and the
    progress reports still to come; reports that other requests can
    observe in between are [EProgress] events before it.  The form view
    [seo_head_checker] reaches the store only by calling
    [start_sitemap_processing], so what it does to the world is what
    [ESubmit] does. *)
Inductive Event :=
  | ESubmit (request : HttpRequest) (u : string)
  | EStatus (task_id : string)
  | EDownload (task_id : string)
  | EProgress (j : Job) (p : Z)
  | EFinish (j : Job) (run : Run)
  | ETick (dt : Z).

(** The job a worker thread has finished leaves the pool. *)
Fixpoint remove_job (j : Job) (p : list Job) : list Job :=
  match p with
  | [] => []
  | j' :: p' => if bool_decide (j' = j) then p' else j' :: remove_job j p'
  end.

(** When an event can happen: [uuid.uuid4()] never returns an identifier
    it returned before, only a pooled job runs, time does not go back. *)
Definition enabled (e : Event) (w : World) : bool :=
  match e with
  | ESubmit _ u => bool_decide (u ∉ drawn w)
  | EStatus _ | EDownload _ => true
  | EProgress j _ | EFinish j _ => bool_decide (j ∈ pool w)
  | ETick dt => bool_decide (0 ≤ dt)
  end.

(** The world after an event.  An exception leaving a handler or a job is
    dropped here: the first belongs to the HTTP client, the second to the
    job's future, which nobody reads. *)
Definition apply_event (e : Event) (w : World) : World :=
  match e with
  | ESubmit request u => snd (start_sitemap_processing request u w)
  | EStatus task_id => snd (get_task_status task_id w)
  | EDownload task_id => snd (download_task_file task_id w)
  | EProgress j p => snd (report_progress (job_id j) p w)
  | EFinish j run =>
      snd (process_task (job_url j) (job_id j) run
             (with_pool (remove_job j (pool w)) w))
  | ETick dt => with_now (now w + dt) w
  end.

(** Runs a schedule; [None] when one of its events is not enabled. *)
Fixpoint exec (es : list Event) (w : World) : option World :=
  match es with
  | [] => Some w
  | e :: es' => if enabled e w then exec es' (apply_event e w) else None
  end.

(** A start of the system: nothing cached, nothing pooled, no identifier
    drawn. *)
Definition initial (w : World) : Prop :=
  cache w = ∅ ∧ pool w = [] ∧ drawn w = ∅.

Definition reachable (w : World) : Prop :=
  ∃ w0 es, initial w0 ∧ exec es w0 = Some w.

End Handlers.

(** A client issuing status queries one after the other. *)
Fixpoint poll_all (task_ids : list string) : M World (list HttpResponse) :=
  match task_ids with
  | [] => ret []
  | t :: ts =>
      r <- get_task_status t ;;
      rs <- poll_all ts ;;
      ret (r :: rs)
  end.

(** ** The task state machine *)

Inductive Status := Pending | Processing | Completed | Error.

Global Instance Status_eq_dec : EqDecision Status.
Proof. solve_decision. Defined.

(** The status a record carries, when it is one of the four. *)
Definition status_of (rec : gmap string Val) : option Status :=
  match rec !! "status" with
  | Some (VStr s) =>
      if bool_decide (s = "pending") then Some Pending
      else if bool_decide (s = "processing") then Some Processing
      else if bool_decide (s = "completed") then Some Completed
      else if bool_decide (s = "error") then Some Error
      else None
  | _ => None
  end.

(** Position in the order pending, processing, then completed or error. *)
Definition rank (s : Status) : nat :=
  match s with
  | Pending => 0%nat
  | Processing => 1%nat
  | Completed | Error => 2%nat
  end.

Definition terminal (s : Status) : bool :=
  match s with
  | Completed | Error => true
  | Pending | Processing => false
  end.

(** [rec'] is where [rec] may be one event later: no earlier in the order,
    and the very same record once [rec] is terminal. *)
Definition forward (rec rec' : gmap string Val) : Prop :=
  ∃ s s', status_of rec = Some s ∧ status_of rec' = Some s'
          ∧ (rank s ≤ rank s')%nat
          ∧ (terminal s = true → rec' = rec).

(** ** Outcome of a pipeline run *)

(** The exception of the first step of the run that fails, if one does. *)
Definition first_failure (run : Run) : option PyExn :=
  match fetch_out run, process_out run, save_out run with
  | Raise e, _, _ => Some e
  | Ok _, Raise e, _ => Some e
  | Ok _, Ok _, Raise e => Some e
  | Ok _, Ok _, Ok _ => None
  end.

(** The record the run leaves under its task identifier. *)
Definition outcome_record (run : Run) : gmap string Val :=
  match fetch_out run, process_out run, save_out run with
  | Raise e, _, _ => error_record (str e)
  | Ok _, Raise e, _ => error_record (str e)
  | Ok _, Ok _, Raise e => error_record (str e)
  | Ok _, Ok _, Ok (path, _) => completed_record path
  end.

(** What the [finally] block of the run does: it deletes the two locals in
    turn and raises at the first that was never assigned. *)
Definition cleanup_outcome (run : Run) : PyResult unit :=
  match fetch_out run, process_out run with
  | Raise _, _ => Raise (UnboundLocalError "urls")
  | Ok _, Raise _ => Raise (UnboundLocalError "results")
  | Ok _, Ok _ => Ok ()
  end.

(** ** The store contract in the spec's words

    [update(id, partialState, ttl)]: merges fields into the existing record
    and refreshes its expiry; fails with [NotFound] if the record is
    absent. *)
Definition NotFound (id : string) : PyExn := Exn "NotFound" id.

Definition TaskStore_update (id : string) (partial : gmap string Val) (ttl : Z)
  : M World unit :=
  λ w, match live (cache w) (now w) id with
       | Some rec =>
           (Ok (), with_cache (<[id := mkEntry (partial ∪ rec) (now w + ttl)]> (cache w)) w)
       | None => (Raise (NotFound id), w)
       end.

(** The cache after the progress reports [ps] of one task, all made at
    time [t]. *)
Definition progress_cache (task_id : string) (ps : list Z) (t : Z)
    (c : gmap string Entry) : gmap string Entry :=
  foldl (λ c' p,
           <[task_id := mkEntry {[ "status" := VStr "processing"; "progress" := VInt p ]}
                                (t + 1800)]> c')
        c ps.

(** ** What every reachable world satisfies

    Pooled jobs and cached records carry drawn identifiers, no two pooled
    jobs share one, every cached record has one of the four statuses, and a
    record in a terminal status has no job left in the pool. *)
Record Inv (w : World) : Prop := mkInv {
  inv_pool_drawn : ∀ j, j ∈ pool w → job_id j ∈ drawn w;
  inv_pool_nodup : NoDup (job_id <$> pool w);
  inv_cache_drawn : ∀ k e, cache w !! k = Some e → k ∈ drawn w;
  inv_status : ∀ k e, cache w !! k = Some e → is_Some (status_of (value e));
  inv_terminal : ∀ k e s, cache w !! k = Some e → status_of (value e) = Some s →
                          terminal s = true → k ∉ job_id <$> pool w
}.

(** A key that is purged stays purged: its identifier is never drawn again
    and no job is left to write under it. *)
Definition purged (task_id : string) (w : World) : Prop :=
  cache w !! task_id = None ∧ (task_id ∉ job_id <$> pool w) ∧ task_id ∈ drawn w.

(** The path of the artifact a run writes, when it gets as far as writing
    one. *)
Definition run_artifact (run : Run) : option string :=
  match first_failure run, save_out run with
  | None, Ok (path, _) => Some path
  | _, _ => None
  end.

Definition artifact_written (e : Event) : option string :=
  match e with
  | EFinish _ run => run_artifact run
  | _ => None
  end.

(** ** The form of [forms.py] and the view that shows it *)

(** [c.isspace()] for a character below 256: what [str.strip()] removes. *)
Definition is_space (c : ascii) : bool :=
  let n := nat_of_ascii c in
  ((9 <=? n) && (n <=? 13) || (28 <=? n) && (n <=? 32)
   || (n =? 133) || (n =? 160))%nat.

(** [s.lstrip()]. *)
Fixpoint lstrip (s : string) : string :=
  match s with
  | EmptyString => EmptyString
  | String c s' => if is_space c then lstrip s' else s
  end.

(** [s.rstrip()]. *)
Fixpoint rstrip (s : string) : string :=
  match s with
  | EmptyString => EmptyString
  | String c s' =>
      match rstrip s' with
      | EmptyString => if is_space c then EmptyString else String c EmptyString
      | r => String c r
      end
  end.

(** [s.strip()]. *)
Definition strip (s : string) : string := rstrip (lstrip s).

Fixpoint all_space (s : string) : bool :=
  match s with
  | EmptyString => true
  | String c s' => is_space c && all_space s'
  end.

Fixpoint has_slash (s : string) : bool :=
  match s with
  | EmptyString => false
  | String c s' => Ascii.eqb c "/"%char || has_slash s'
  end.

Definition ValidationError (message : string) : PyExn :=
  Exn "ValidationError" message.

(** A [SitemapForm]: built without data, or bound to [request.POST]. *)
Inductive Form :=
  | UnboundForm
  | BoundForm (data : gmap string string).

(** What [render(request, "projects/seo_head_checker.html", context)] is
    given: the three contexts the view builds. *)
Inductive Context :=
  | FormOnly (form : Form)
  | WithTask (form : Form) (task_id : option Val)
  | WithError (form : Form) (error : Val).

Record Page := mkPage {
  template : string;
  context : Context
}.

Definition render (c : Context) : Page :=
  mkPage "projects/seo_head_checker.html" c.

Section FormView.

Variable json_loads : string → PyResult Json.
Variable normalize_url : Json → PyResult string.

(** Django's cleaning of the declared field, [CharField(required=True)],
    applied to the submitted value if there is one. *)
Variable field_clean : option string → PyResult string.

(** [response.json()]. *)
Variable response_json : HttpResponse → PyResult (gmap string Val).

(** [SitemapForm.clean_sitemap_url], on the value the field cleaning left
    in [cleaned_data]. *)
Definition clean_sitemap_url (value : string) : PyResult string :=
  let url := strip value in
  match normalize_url (JStr url) with
  | Ok normalized => Ok normalized
  | Raise _ => Raise (ValidationError "Please enter a valid sitemap URL.")
  end.

(** The cleaning of the whole form: the field, then [clean_sitemap_url];
    a form without data has nothing to clean. *)
Definition full_clean (form : Form) : PyResult string :=
  match form with
  | UnboundForm => Raise (ValidationError "This form is not bound.")
  | BoundForm data =>
      match field_clean (data !! "sitemap_url") with
      | Ok value => clean_sitemap_url value
      | Raise e => Raise e
      end
  end.

(** [form.is_valid()]. *)
Definition is_valid (form : Form) : bool :=
  match full_clean form with
  | Ok _ => true
  | Raise _ => false
  end.

(** [seo_head_checker(request)]; [post] is [request.POST] and [u] the
    identifier [uuid.uuid4()] returns if it is called.  The headers the
    [cache_control] decorator adds are not part of [Page]. *)
Definition seo_head_checker (request : HttpRequest) (post : gmap string string)
    (u : string) : M World Page :=
  if bool_decide (method request = "POST") then
    let form := BoundForm post in
    if is_valid form then
      try_except
        (response <- start_sitemap_processing json_loads normalize_url request u ;;
         if bool_decide (status_code response = 202) then
           d <- call (response_json response) ;;
           ret (render (WithTask form (d !! "task_id")))
         else
           d <- call (response_json response) ;;
           ret (render (WithError form
                          (default (VStr "Unexpected error.") (d !! "error")))))
        (λ e, ret (render (WithError form (VStr (str e)))))
    else
      ret (render (FormOnly form))
  else
    ret (render (FormOnly UnboundForm)).

End FormView.

(** ** Further notions for the running system *)

(** The task identifier an event is about, if it is about one. *)
Definition subject (e : Event) : option string :=
  match e with
  | ESubmit _ u => Some u
  | EStatus task_id | EDownload task_id => Some task_id
  | EProgress j _ | EFinish j _ => Some (job_id j)
  | ETick _ => None
  end.

(** No entry outlives the time-to-live: it expires at most 1800 seconds
    from now. *)
Definition ttl_bounded (w : World) : Prop :=
  ∀ k e, cache w !! k = Some e → expires_at e ≤ now w + 1800.

(** An identifier whose job has run: drawn, and no longer in the pool. *)
Definition retired (task_id : string) (w : World) : Prop :=
  (task_id ∉ job_id <$> pool w) ∧ task_id ∈ drawn w.

(** ** Sample inputs *)

Definition sample_json_loads (s : string) : PyResult Json :=
  if bool_decide (s = "{sitemap_url: example.com/sitemap.xml}") then
    Ok (JObj [("sitemap_url", JStr "example.com/sitemap.xml")])
  else if bool_decide (s = "{sitemap_url: 7}") then
    Ok (JObj [("sitemap_url", JNum 7)])
  else Raise (Exn "JSONDecodeError" "Expecting value").

Definition sample_normalize_url (raw : Json) : PyResult string :=
  match raw with
  | JStr s => Ok ("https://" ++ s)
  | _ => Raise (Exn "ValueError" "Invalid URL")
  end.

Definition sample_request : HttpRequest :=
  mkRequest "POST" "{sitemap_url: example.com/sitemap.xml}".

Definition empty_world : World := mkWorld ∅ ∅ 0 [] ∅.

Definition sample_run : Run :=
  mkRun (Ok ["https://example.com/a"; "https://example.com/b"]) [50; 100]
        (Ok [{[ "url" := VStr "https://example.com/a" ]}])
        (Ok ("/tmp/t1.csv", [Byte.x75; Byte.x72; Byte.x6c])).

Definition sample_job : Job := mkJob "t1" "https://example.com/sitemap.xml".

(** Submitted, then finished: the record of ["t1"] is completed and its
    artifact is on storage. *)
Definition sample_schedule : list Event :=
  [ESubmit sample_request "t1"; EProgress sample_job 40; EFinish sample_job sample_run].

Definition completed_world : World :=
  apply_event sample_json_loads sample_normalize_url
    (EFinish sample_job sample_run)
    (apply_event sample_json_loads sample_normalize_url
       (EProgress sample_job 40)
       (apply_event sample_json_loads sample_normalize_url
          (ESubmit sample_request "t1") empty_world)).

(** Right after the submission of ["t1"]. *)
Definition submitted_world : World :=
  apply_event sample_json_loads sample_normalize_url
    (ESubmit sample_request "t1") empty_world.

(** The record of ["t1"] is completed but its artifact is gone. *)
Definition orphan_world : World := with_fs ∅ completed_world.

(** The record of ["t1"] is processing at 40 percent; nothing is pooled. *)
Definition progressing_world : World :=
  mkWorld {[ "t1" := mkEntry {[ "status" := VStr "processing"; "progress" := VInt 40 ]} 1800 ]}
          ∅ 0 [] {[ "t1" ]}.

(** A run that succeeds and reports no further progress. *)
Definition quiet_run : Run :=
  mkRun (Ok ["https://example.com/a"]) []
        (Ok [{[ "url" := VStr "https://example.com/a" ]}])
        (Ok ("/tmp/t1.csv", [Byte.x75; Byte.x72; Byte.x6c])).

(** A run whose sitemap fetch raises an exception without text, as
    [raise TimeoutError()] does. *)
Definition silent_failure_run : Run :=
  mkRun (Raise (Exn "TimeoutError" "")) [] (Ok []) (Ok ("/tmp/t1.csv", [])).

(** A run whose sitemap fetch raises with a text. *)
Definition refused_run : Run :=
  mkRun (Raise (Exn "ConnectionError" "Connection refused")) [] (Ok [])
        (Ok ("/tmp/t1.csv", [])).

Definition get_request : HttpRequest := mkRequest "GET" "".

Definition bad_url_request : HttpRequest := mkRequest "POST" "{sitemap_url: 7}".

(** A field cleaning that strips the value and requires it. *)
Definition sample_field_clean (raw : option string) : PyResult string :=
  match raw with
  | Some v =>
      if bool_decide (strip v = "") then
        Raise (ValidationError "This field is required.")
      else Ok (strip v)
  | None => Raise (ValidationError "This field is required.")
  end.

(** A [response.json()] that decodes a JSON body. *)
Definition sample_response_json (r : HttpResponse) : PyResult (gmap string Val) :=
  match content r with
  | JsonContent d => Ok d
  | FileContent _ => Raise (Exn "JSONDecodeError" "Expecting value")
  end.

(** A response class without a [json] method. *)
Definition missing_response_json (r : HttpResponse) : PyResult (gmap string Val) :=
  Raise (Exn "AttributeError" "'JsonResponse' object has no attribute 'json'").

Definition sample_post : gmap string string :=
  {[ "sitemap_url" := "  example.com/sitemap.xml " ]}.

Definition blank_post : gmap string string := {[ "sitemap_url" := "   " ]}.

(** A POST whose body is not JSON. *)
Definition form_encoded_request : HttpRequest :=
  mkRequest "POST" "sitemap_url=example.com%2Fsitemap.xml".

(** Some time after ["t1"] completed: its entry has expired. *)
Definition expired_world : World := with_now 5000 completed_world.

(** * Properties *)

(** ** The worker *)

Lemma report_all_spec task_id ps w :
  report_all task_id ps w
  = (Ok (), with_cache (progress_cache task_id ps (now w) (cache w)) w).
Proof.
  revert w. induction ps as [|p ps IH]; intros w.
  - destruct w; reflexivity.
  - cbn [report_all]. unfold bind at 1. unfold report_progress, cache_set.
    rewrite IH. destruct w; reflexivity.
Qed.

Lemma progress_cache_other task_id ps t c k :
  k ≠ task_id → progress_cache task_id ps t c !! k = c !! k.
Proof.
  intros Hk. revert c. induction ps as [|p ps IH]; intros c; [done|].
  cbn. unfold progress_cache in IH. rewrite IH.
  by rewrite lookup_insert_ne.
Qed.

Lemma outcome_record_cases run :
  (∃ e, first_failure run = Some e ∧ outcome_record run = error_record (str e))
  ∨ (∃ path bytes, first_failure run = None ∧ save_out run = Ok (path, bytes)
                   ∧ outcome_record run = completed_record path).
Proof.
  unfold outcome_record, first_failure.
  destruct (fetch_out run), (process_out run), (save_out run) as [[path bytes]|];
    eauto 6.
Qed.

(** What one call of [process_task] does: it leaves the outcome of the run
    under its own key, to expire 1800 seconds later, touches no other key,
    and returns what the cleanup yields. *)
Lemma process_task_spec sitemap_url task_id run w :
  ∃ w', process_task sitemap_url task_id run w = (cleanup_outcome run, w')
        ∧ cache w' !! task_id = Some (mkEntry (outcome_record run) (now w + 1800))
        ∧ (∀ k, k ≠ task_id → cache w' !! k = cache w !! k)
        ∧ now w' = now w ∧ pool w' = pool w ∧ drawn w' = drawn w.
Proof.
  unfold process_task, process_task_body, try_finally, try_except, bind, lift,
    fetch_sitemap_urls, process_sitemap_urls, save_results_to_csv, call,
    cleanup_outcome, outcome_record, first_failure, bind.
  destruct (fetch_out run) as [us|e1]; cbn.
  - rewrite report_all_spec; cbn.
    destruct (process_out run) as [rs|e2]; cbn.
    + destruct (save_out run) as [[path bytes]|e3]; cbn.
      * eexists; split; [reflexivity|]. cbn.
        split; [by rewrite lookup_insert_eq|].
        split; [|done]. intros k Hk.
        rewrite lookup_insert_ne by done. by apply progress_cache_other.
      * eexists; split; [reflexivity|]. cbn.
        split; [by rewrite lookup_insert_eq|].
        split; [|done]. intros k Hk.
        rewrite lookup_insert_ne by done. by apply progress_cache_other.
    + eexists; split; [reflexivity|]. cbn.
      split; [by rewrite lookup_insert_eq|].
      split; [|done]. intros k Hk.
      rewrite lookup_insert_ne by done. by apply progress_cache_other.
  - eexists; split; [reflexivity|]. cbn.
    split; [by rewrite lookup_insert_eq|].
    split; [|done]. intros k Hk. by rewrite lookup_insert_ne.
Qed.

(** ** The handlers, case by case *)

Example basename_sample : basename "/tmp/results/t1.csv" = "t1.csv".
Proof. reflexivity. Qed.

Example content_disposition_sample :
  content_disposition "/tmp/t1.csv"
  = "attachment; filename=" ++ dquote ++ "t1.csv" ++ dquote.
Proof. reflexivity. Qed.

Lemma get_task_status_world task_id w :
  snd (get_task_status task_id w) = w.
Proof.
  unfold get_task_status, bind, cache_get, ret.
  by destruct (falsy_task _).
Qed.

Lemma get_task_status_found task_id w rec :
  live (cache w) (now w) task_id = Some rec → rec ≠ ∅ →
  get_task_status task_id w = (Ok (JsonResponse rec 200), w).
Proof.
  intros Hl Hne. unfold get_task_status, bind, cache_get, ret.
  rewrite Hl. cbn. by rewrite bool_decide_eq_false_2.
Qed.

Lemma download_not_ready task_id w :
  (∀ rec, live (cache w) (now w) task_id = Some rec →
          rec !! "status" ≠ Some (VStr "completed")) →
  download_task_file task_id w
  = (Ok (JsonResponse {[ "error" := VStr "File not ready or task not found" ]} 404), w).
Proof.
  intros H. unfold download_task_file, bind, cache_get, ret.
  destruct (live (cache w) (now w) task_id) as [rec|] eqn:Hl; cbn; [|done].
  rewrite (bool_decide_eq_true_2 _ (H rec eq_refl)).
  by rewrite orb_true_r.
Qed.

Lemma completed_not_empty (rec : gmap string Val) :
  rec !! "status" = Some (VStr "completed") → rec ≠ ∅.
Proof. intros H ->. by rewrite lookup_empty in H. Qed.

Lemma download_file_missing task_id w rec :
  live (cache w) (now w) task_id = Some rec →
  rec !! "status" = Some (VStr "completed") →
  (rec !! "file" = None
   ∨ ∃ path, rec !! "file" = Some (VStr path) ∧ lookup_file (fs w) path = None) →
  download_task_file task_id w
  = (Ok (JsonResponse {[ "error" := VStr "File not found" ]} 404), w).
Proof.
  intros Hl Hs Hf. unfold download_task_file, bind, cache_get, ret.
  rewrite Hl. cbn.
  rewrite (bool_decide_eq_false_2 _ (completed_not_empty _ Hs)).
  rewrite bool_decide_eq_false_2 by (intros Hn; by apply Hn).
  cbn. destruct Hf as [Hf|(path & Hf & Hnone)]; rewrite Hf; cbn; [done|].
  case_bool_decide; [done|].
  unfold os_path_exists. rewrite Hnone.
  by rewrite (bool_decide_eq_false_2 (is_Some None)) by (by intros [? ?]).
Qed.

Lemma download_served task_id w rec path bytes :
  live (cache w) (now w) task_id = Some rec →
  rec !! "status" = Some (VStr "completed") →
  rec !! "file" = Some (VStr path) →
  lookup_file (fs w) path = Some bytes →
  download_task_file task_id w
  = (Ok (mkResponse 200 "application/octet-stream"
           [("Content-Disposition", content_disposition path)]
           (FileContent bytes)),
     mkWorld (delete task_id (cache w)) (delete path (fs w)) (now w) (pool w) (drawn w)).
Proof.
  intros Hl Hs Hf Hb. unfold download_task_file, bind, cache_get, ret.
  rewrite Hl. cbn.
  rewrite (bool_decide_eq_false_2 _ (completed_not_empty _ Hs)).
  rewrite bool_decide_eq_false_2 by (intros Hn; by apply Hn).
  cbn. rewrite Hf. cbn.
  assert (path ≠ "") as Hne.
  { intros ->. unfold lookup_file in Hb. by rewrite bool_decide_eq_true_2 in Hb. }
  rewrite (bool_decide_eq_false_2 _ Hne).
  unfold os_path_exists. rewrite Hb.
  rewrite (bool_decide_eq_true_2 (is_Some (Some bytes))) by eauto. cbn.
  unfold open_rb, os_remove, cache_delete, gc_collect, ret. rewrite Hb. cbn.
  rewrite Hb. reflexivity.
Qed.

(** Every call of [download_task_file] either leaves the world as it is
    or serves a completed record and removes it with its file. *)
Lemma download_task_file_cases task_id w :
  snd (download_task_file task_id w) = w
  ∨ ∃ rec path,
      live (cache w) (now w) task_id = Some rec
      ∧ rec !! "status" = Some (VStr "completed")
      ∧ snd (download_task_file task_id w)
        = mkWorld (delete task_id (cache w)) (delete path (fs w))
                  (now w) (pool w) (drawn w).
Proof.
  destruct (live (cache w) (now w) task_id) as [rec|] eqn:Hl.
  - destruct (decide (rec !! "status" = Some (VStr "completed"))) as [Hs|Hs].
    + destruct (rec !! "file") as [[path|n]|] eqn:Hf.
      * destruct (lookup_file (fs w) path) as [bytes|] eqn:Hb.
        -- right. exists rec, path. split; [done|]. split; [done|].
           by rewrite (download_served _ _ _ _ _ Hl Hs Hf Hb).
        -- left. rewrite (download_file_missing _ _ _ Hl Hs); [done|].
           right. eauto.
      * left. unfold download_task_file, bind, cache_get, ret.
        rewrite Hl. cbn.
        rewrite (bool_decide_eq_false_2 _ (completed_not_empty _ Hs)).
        rewrite bool_decide_eq_false_2 by (intros Hn; by apply Hn).
        cbn. rewrite Hf. cbn. by case_bool_decide.
      * left. rewrite (download_file_missing _ _ _ Hl Hs); [done|]. by left.
    + left. rewrite download_not_ready; [done|].
      intros rec' Hl'. congruence.
  - left. rewrite download_not_ready; [done|]. intros rec' Hl'. congruence.
Qed.

(** No call of [download_task_file] ends with an exception. *)
Lemma download_task_file_returns task_id w :
  ∃ r, fst (download_task_file task_id w) = Ok r.
Proof.
  destruct (live (cache w) (now w) task_id) as [rec|] eqn:Hl.
  - destruct (decide (rec !! "status" = Some (VStr "completed"))) as [Hs|Hs].
    + destruct (rec !! "file") as [[path|n]|] eqn:Hf.
      * destruct (lookup_file (fs w) path) as [bytes|] eqn:Hb.
        -- rewrite (download_served _ _ _ _ _ Hl Hs Hf Hb). eauto.
        -- rewrite (download_file_missing _ _ _ Hl Hs); eauto.
      * unfold download_task_file, bind, cache_get, ret.
        rewrite Hl. cbn.
        rewrite (bool_decide_eq_false_2 _ (completed_not_empty _ Hs)).
        rewrite bool_decide_eq_false_2 by (intros Hn; by apply Hn).
        cbn. rewrite Hf. cbn. case_bool_decide; eauto.
      * rewrite (download_file_missing _ _ _ Hl Hs); eauto.
    + rewrite download_not_ready; [eauto|]. intros rec' Hl'. congruence.
  - rewrite download_not_ready; [eauto|]. intros rec' Hl'. congruence.
Qed.

Section Submission.

Variable json_loads : string → PyResult Json.
Variable normalize_url : Json → PyResult string.

Local Abbreviation submit := (start_sitemap_processing json_loads normalize_url).

Lemma submit_not_post request u w :
  method request ≠ "POST" →
  submit request u w
  = (Ok (JsonResponse {[ "error" := VStr "Invalid request method" ]} 405), w).
Proof.
  intros H. unfold start_sitemap_processing.
  by rewrite (bool_decide_eq_false_2 _ H).
Qed.

Lemma submit_rejected request u w e :
  method request = "POST" → requested_url json_loads normalize_url request = Raise e →
  submit request u w = (Ok (JsonResponse {[ "error" := VStr (str e) ]} 400), w).
Proof.
  intros Hm Hr. unfold start_sitemap_processing, requested_url in *.
  rewrite (bool_decide_eq_true_2 _ Hm).
  unfold try_except, bind, call, ret.
  destruct (json_loads (body request)) as [data|e1]; [|congruence].
  destruct (py_get data "sitemap_url") as [raw|e2]; [|congruence].
  by rewrite Hr.
Qed.

Lemma submit_accepted request u w sitemap_url :
  method request = "POST" → requested_url json_loads normalize_url request = Ok sitemap_url →
  submit request u w
  = (Ok (JsonResponse {[ "task_id" := VStr u ]} 202),
     mkWorld (<[u := mkEntry pending_record (now w + 1800)]> (cache w))
             (fs w) (now w) (pool w ++ [mkJob u sitemap_url])
             ({[u]} ∪ drawn w)).
Proof.
  intros Hm Hr. unfold start_sitemap_processing, requested_url in *.
  rewrite (bool_decide_eq_true_2 _ Hm).
  unfold try_except, bind, call, ret.
  destruct (json_loads (body request)) as [data|e1]; [|congruence].
  destruct (py_get data "sitemap_url") as [raw|e2]; [|congruence].
  by rewrite Hr.
Qed.

(** The handler never lets an exception out. *)
Lemma submit_cases request u w :
  (∃ r, submit request u w = (Ok r, w) ∧ status_code r ≠ 202)
  ∨ (∃ sitemap_url,
       method request = "POST" ∧ requested_url json_loads normalize_url request = Ok sitemap_url
       ∧ submit request u w
         = (Ok (JsonResponse {[ "task_id" := VStr u ]} 202),
            mkWorld (<[u := mkEntry pending_record (now w + 1800)]> (cache w))
                    (fs w) (now w) (pool w ++ [mkJob u sitemap_url])
                    ({[u]} ∪ drawn w))).
Proof.
  destruct (decide (method request = "POST")) as [Hm|Hm].
  - destruct (requested_url json_loads normalize_url request) as [sitemap_url|e] eqn:Hr.
    + right. exists sitemap_url. eauto using submit_accepted.
    + left. eexists. split; [by apply submit_rejected|]. done.
  - left. eexists. split; [by apply submit_not_post|]. done.
Qed.

End Submission.

(** ** Statuses of the records the code writes *)

Lemma status_of_pending : status_of pending_record = Some Pending.
Proof. reflexivity. Qed.

Lemma status_of_processing p :
  status_of {[ "status" := VStr "processing"; "progress" := VInt p ]} = Some Processing.
Proof. reflexivity. Qed.

Lemma status_of_completed path : status_of (completed_record path) = Some Completed.
Proof. reflexivity. Qed.

Lemma status_of_error msg : status_of (error_record msg) = Some Error.
Proof. reflexivity. Qed.

Lemma status_of_outcome run :
  ∃ s, status_of (outcome_record run) = Some s ∧ terminal s = true.
Proof.
  destruct (outcome_record_cases run) as [(e & _ & ->)|(path & bytes & _ & _ & ->)].
  - exists Error. by rewrite status_of_error.
  - exists Completed. by rewrite status_of_completed.
Qed.

(** ** The pool *)

Lemma remove_job_subseteq j p x : x ∈ remove_job j p → x ∈ p.
Proof.
  induction p as [|j' p IH]; cbn; [done|].
  case_bool_decide; intros Hx.
  - by apply list_elem_of_further.
  - apply elem_of_cons in Hx as [->|Hx]; [apply list_elem_of_here|].
    apply list_elem_of_further. by apply IH.
Qed.

Lemma remove_job_ids_subseteq j p k :
  k ∈ job_id <$> remove_job j p → k ∈ job_id <$> p.
Proof.
  intros (x & -> & Hx)%list_elem_of_fmap.
  apply list_elem_of_fmap. exists x. split; [done|].
  by eapply remove_job_subseteq.
Qed.

Lemma remove_job_nodup j p :
  NoDup (job_id <$> p) → NoDup (job_id <$> remove_job j p).
Proof.
  induction p as [|j' p IH]; cbn; [done|].
  intros [Hnotin Hnd]%NoDup_cons. case_bool_decide; [done|].
  cbn. apply NoDup_cons. split; [|by apply IH].
  intros Hin. apply Hnotin. by eapply remove_job_ids_subseteq.
Qed.

Lemma remove_job_gone j p :
  NoDup (job_id <$> p) → j ∈ p → job_id j ∉ job_id <$> remove_job j p.
Proof.
  induction p as [|j' p IH]; cbn; [by intros _ ?%elem_of_nil|].
  intros [Hnotin Hnd]%NoDup_cons Hj. case_bool_decide as Heq.
  - by subst j'.
  - apply elem_of_cons in Hj as [->|Hj]; [done|].
    cbn. intros [Hid|Hin]%elem_of_cons.
    + apply Hnotin. rewrite <- Hid. apply list_elem_of_fmap. eauto.
    + by apply IH.
Qed.

(** ** The invariant holds along every schedule *)

Section Invariant.

Variable json_loads : string → PyResult Json.
Variable normalize_url : Json → PyResult string.

Local Abbreviation submit := (start_sitemap_processing json_loads normalize_url).
Local Abbreviation after := (apply_event json_loads normalize_url).
Local Abbreviation run_schedule := (exec json_loads normalize_url).

Lemma initial_inv w : initial w → Inv w.
Proof.
  intros (Hc & Hp & Hd). split.
  - rewrite Hp. by intros j ?%elem_of_nil.
  - rewrite Hp. apply NoDup_nil_2.
  - rewrite Hc. intros k e. by rewrite lookup_empty.
  - rewrite Hc. intros k e. by rewrite lookup_empty.
  - rewrite Hc. intros k e s. by rewrite lookup_empty.
Qed.

Lemma submit_inv request u w :
  Inv w → u ∉ drawn w → Inv (snd (submit request u w)).
Proof.
  intros [Ha Hb Hc Hd He] Hu.
  destruct (submit_cases json_loads normalize_url request u w)
    as [(r & -> & _)|(url & _ & _ & ->)]; [done|].
  cbn. split; cbn.
  - intros j [Hj| ->%list_elem_of_singleton]%elem_of_app.
    + apply elem_of_union_r. by apply Ha.
    + apply elem_of_union_l. by apply elem_of_singleton.
  - rewrite fmap_app. apply NoDup_app. split; [done|]. split.
    + intros k (j & -> & Hj)%list_elem_of_fmap Heq%list_elem_of_singleton.
      apply Hu. cbn in Heq. rewrite <- Heq. by apply Ha.
    + cbn. apply NoDup_singleton.
  - intros k e. rewrite lookup_insert. case_decide as Hk.
    + subst k. intros _. apply elem_of_union_l. by apply elem_of_singleton.
    + intros Hl. apply elem_of_union_r. by eapply Hc.
  - intros k e. rewrite lookup_insert. case_decide as Hk.
    + intros [= <-]. cbn. by rewrite status_of_pending.
    + by apply Hd.
  - intros k e s. rewrite lookup_insert. case_decide as Hk.
    + intros [= <-]. cbn. rewrite status_of_pending. by intros [= <-].
    + intros Hl Hs Ht. rewrite fmap_app.
      intros [Hin| ->%list_elem_of_singleton]%elem_of_app.
      * by eapply He.
      * apply Hu. by eapply Hc.
Qed.

Lemma download_inv task_id w : Inv w → Inv (snd (download_task_file task_id w)).
Proof.
  intros [Ha Hb Hc Hd He].
  destruct (download_task_file_cases task_id w) as [->|(rec & path & _ & _ & ->)];
    [done|].
  split; cbn; try done.
  - intros k e [_ Hl]%lookup_delete_Some. by eapply Hc.
  - intros k e [_ Hl]%lookup_delete_Some. by eapply Hd.
  - intros k e s [_ Hl]%lookup_delete_Some. by eapply He.
Qed.

Lemma progress_inv j p w :
  Inv w → j ∈ pool w → Inv (snd (report_progress (job_id j) p w)).
Proof.
  intros [Ha Hb Hc Hd He] Hj. split; cbn; try done.
  - intros k e. rewrite lookup_insert. case_decide as Hk.
    + subst k. intros _. by apply Ha.
    + by apply Hc.
  - intros k e. rewrite lookup_insert. case_decide as Hk.
    + intros [= <-]. cbn. by rewrite status_of_processing.
    + by apply Hd.
  - intros k e s. rewrite lookup_insert. case_decide as Hk.
    + intros [= <-]. cbn. rewrite status_of_processing. by intros [= <-].
    + by apply He.
Qed.

Lemma finish_inv j run w :
  Inv w → j ∈ pool w →
  Inv (snd (process_task (job_url j) (job_id j) run
              (with_pool (remove_job j (pool w)) w))).
Proof.
  intros [Ha Hb Hc Hd He] Hj.
  destruct (process_task_spec (job_url j) (job_id j) run
              (with_pool (remove_job j (pool w)) w))
    as (w' & -> & Hnew & Hother & Hnow & Hpool & Hdrawn).
  cbn in *. split.
  - rewrite Hpool, Hdrawn. intros x Hx. apply Ha. by eapply remove_job_subseteq.
  - rewrite Hpool. by apply remove_job_nodup.
  - rewrite Hdrawn. intros k e Hl. destruct (decide (k = job_id j)) as [->|Hk].
    + by apply Ha.
    + rewrite Hother in Hl by done. by eapply Hc.
  - intros k e Hl. destruct (decide (k = job_id j)) as [->|Hk].
    + rewrite Hnew in Hl. injection Hl as <-. cbn.
      destruct (status_of_outcome run) as (s & -> & _). eauto.
    + rewrite Hother in Hl by done. by eapply Hd.
  - rewrite Hpool. intros k e s Hl Hs Ht. destruct (decide (k = job_id j)) as [->|Hk].
    + by apply remove_job_gone.
    + rewrite Hother in Hl by done. intros Hin.
      eapply He; [done..|]. by eapply remove_job_ids_subseteq.
Qed.

Lemma apply_event_inv e w : Inv w → enabled e w = true → Inv (after e w).
Proof.
  intros HI Hen.
  destruct e as [request u|task_id|task_id|j p|j run|dt];
    cbn [enabled apply_event] in *;
    try apply bool_decide_eq_true in Hen.
  - by apply submit_inv.
  - by rewrite get_task_status_world.
  - by apply download_inv.
  - by apply progress_inv.
  - by apply finish_inv.
  - by destruct HI.
Qed.

Lemma exec_inv es w0 w : Inv w0 → run_schedule es w0 = Some w → Inv w.
Proof.
  revert w0. induction es as [|e es IH]; intros w0 HI; cbn.
  - by intros [= <-].
  - destruct (enabled e w0) eqn:Hen; [|done].
    apply IH. by apply apply_event_inv.
Qed.

Lemma reachable_inv w : reachable json_loads normalize_url w → Inv w.
Proof.
  intros (w0 & es & Hinit & Hrun). eapply exec_inv; [|done].
  by apply initial_inv.
Qed.

End Invariant.

(** ** One event seen from one key *)

Section Lifecycle.

Variable json_loads : string → PyResult Json.
Variable normalize_url : Json → PyResult string.

Local Abbreviation submit := (start_sitemap_processing json_loads normalize_url).
Local Abbreviation after := (apply_event json_loads normalize_url).
Local Abbreviation run_schedule := (exec json_loads normalize_url).

(** An event leaves the entry under a key as it is, removes it, or
    replaces an entry that was not terminal by a fresh one that is
    processing or terminal. *)
Lemma entry_step e w k e0 :
  Inv w → enabled e w = true → cache w !! k = Some e0 →
  now w ≤ now (after e w)
  ∧ (cache (after e w) !! k = Some e0
     ∨ cache (after e w) !! k = None
     ∨ ∃ e1 s s',
         cache (after e w) !! k = Some e1
         ∧ expires_at e1 = now (after e w) + 1800
         ∧ status_of (value e0) = Some s ∧ terminal s = false
         ∧ status_of (value e1) = Some s' ∧ s' ≠ Pending).
Proof.
  intros HI Hen Hk.
  assert (∀ j, j ∈ pool w → job_id j = k →
               ∃ s, status_of (value e0) = Some s ∧ terminal s = false) as Hlive.
  { intros j Hj Hid. destruct (inv_status w HI k e0 Hk) as [s Hs].
    exists s. split; [done|]. destruct (terminal s) eqn:Ht; [|done].
    exfalso. eapply (inv_terminal w HI k e0 s); [done..|].
    apply list_elem_of_fmap. eauto. }
  destruct e as [request u|task_id|task_id|j p|j run|dt];
    cbn [enabled apply_event] in *;
    try apply bool_decide_eq_true in Hen.
  - destruct (submit_cases json_loads normalize_url request u w)
      as [(r & -> & _)|(url & _ & _ & ->)]; cbn; [split; [lia|by left]|].
    split; [lia|]. left. rewrite lookup_insert_ne; [done|].
    intros ->. apply Hen. by eapply inv_cache_drawn.
  - rewrite get_task_status_world. split; [lia|by left].
  - destruct (download_task_file_cases task_id w)
      as [->|(rec & path & _ & _ & ->)]; cbn; [split; [lia|by left]|].
    split; [lia|]. destruct (decide (task_id = k)) as [->|Hne].
    + right; left. apply lookup_delete_eq.
    + left. by rewrite lookup_delete_ne.
  - cbn. split; [lia|]. destruct (decide (job_id j = k)) as [Hid|Hne].
    + right; right. destruct (Hlive j Hen Hid) as (s & Hs & Ht).
      eexists _, s, Processing. rewrite Hid, lookup_insert_eq.
      split; [done|]. cbn. by rewrite status_of_processing.
    + left. by rewrite lookup_insert_ne.
  - destruct (process_task_spec (job_url j) (job_id j) run
                (with_pool (remove_job j (pool w)) w))
      as (w' & -> & Hnew & Hother & Hnow & _ & _).
    cbn in *. split; [lia|]. destruct (decide (job_id j = k)) as [Hid|Hne].
    + right; right. destruct (Hlive j Hen Hid) as (s & Hs & Ht).
      destruct (status_of_outcome run) as (s' & Hs' & Ht').
      eexists _, s, s'. rewrite <- Hid, Hnew. cbn. rewrite Hnow.
      repeat split; try done. intros ->. done.
    + left. by rewrite Hother.
  - cbn. split; [lia|by left].
Qed.

Lemma purged_step e w task_id :
  enabled e w = true → purged task_id w → purged task_id (after e w).
Proof.
  intros Hen (Hc & Hp & Hd).
  destruct e as [request u|tid|tid|j p|j run|dt];
    cbn [enabled apply_event] in *;
    try apply bool_decide_eq_true in Hen.
  - destruct (submit_cases json_loads normalize_url request u w)
      as [(r & -> & _)|(url & _ & _ & ->)]; [done|].
    split; [|split]; cbn.
    + rewrite lookup_insert_ne; [done|]. by intros ->.
    + rewrite fmap_app. intros [Hin|Hin%list_elem_of_singleton]%elem_of_app; [done|].
      cbn in Hin. by subst u.
    + by apply elem_of_union_r.
  - by rewrite get_task_status_world.
  - destruct (download_task_file_cases tid w)
      as [->|(rec & path & _ & _ & ->)]; [done|].
    split; [|done]. cbn. apply lookup_delete_None. by right.
  - split; [|done]. cbn. rewrite lookup_insert_ne; [done|].
    intros Hid. apply Hp. rewrite <- Hid. apply list_elem_of_fmap. eauto.
  - destruct (process_task_spec (job_url j) (job_id j) run
                (with_pool (remove_job j (pool w)) w))
      as (w' & -> & _ & Hother & _ & Hpool & Hdrawn).
    cbn in *. split; [|split].
    + rewrite Hother; [done|].
      intros Hid. apply Hp. rewrite Hid. apply list_elem_of_fmap. eauto.
    + rewrite Hpool. intros Hin. apply Hp. by eapply remove_job_ids_subseteq.
    + by rewrite Hdrawn.
  - done.
Qed.

Lemma purged_exec es w w' task_id :
  purged task_id w → run_schedule es w = Some w' → purged task_id w'.
Proof.
  revert w. induction es as [|e es IH]; intros w Hp; cbn.
  - by intros [= <-].
  - destruct (enabled e w) eqn:Hen; [|done].
    apply IH. by apply purged_step.
Qed.

End Lifecycle.

(** ** Files *)

Lemma process_task_fs sitemap_url task_id run w p :
  run_artifact run ≠ Some p →
  fs (snd (process_task sitemap_url task_id run w)) !! p = fs w !! p.
Proof.
  unfold process_task, process_task_body, try_finally, try_except, bind, lift,
    fetch_sitemap_urls, process_sitemap_urls, save_results_to_csv, call,
    run_artifact, first_failure, bind.
  destruct (fetch_out run) as [us|e1]; cbn; [|done].
  rewrite report_all_spec; cbn.
  destruct (process_out run) as [rs|e2]; cbn; [|done].
  destruct (save_out run) as [[path bytes]|e3]; cbn; [|done].
  intros Hne. rewrite lookup_insert_ne; [done|]. congruence.
Qed.

Lemma lookup_file_delete f p q :
  lookup_file f p = None → lookup_file (delete q f) p = None.
Proof.
  unfold lookup_file. case_bool_decide; [done|].
  intros Hn. apply lookup_delete_None. by right.
Qed.

Section Storage.

Variable json_loads : string → PyResult Json.
Variable normalize_url : Json → PyResult string.

Local Abbreviation after := (apply_event json_loads normalize_url).
Local Abbreviation run_schedule := (exec json_loads normalize_url).

Lemma fs_step e w p :
  artifact_written e ≠ Some p →
  lookup_file (fs w) p = None → lookup_file (fs (after e w)) p = None.
Proof.
  intros Hart Hp.
  destruct e as [request u|tid|tid|j q|j run|dt]; cbn [apply_event artifact_written] in *.
  - by destruct (submit_cases json_loads normalize_url request u w)
      as [(r & -> & _)|(url & _ & _ & ->)].
  - by rewrite get_task_status_world.
  - destruct (download_task_file_cases tid w)
      as [->|(rec & path & _ & _ & ->)]; [done|].
    cbn. by apply lookup_file_delete.
  - done.
  - unfold lookup_file in *. case_bool_decide; [done|].
    by rewrite process_task_fs.
  - done.
Qed.

Lemma fs_exec es w w' p :
  Forall (λ e, artifact_written e ≠ Some p) es →
  lookup_file (fs w) p = None → run_schedule es w = Some w' →
  lookup_file (fs w') p = None.
Proof.
  intros Hall. revert w. induction Hall as [|e es He Hes IH]; intros w Hp; cbn.
  - by intros [= <-].
  - destruct (enabled e w); [|done]. apply IH. by apply fs_step.
Qed.

End Storage.

(** * The lifecycle claims *)

Lemma live_Some c t k rec :
  live c t k = Some rec ↔ ∃ e, c !! k = Some e ∧ t < expires_at e ∧ value e = rec.
Proof.
  unfold live. split.
  - destruct (c !! k) as [e|]; [|done]. case_bool_decide; [|done].
    intros [= <-]. eauto.
  - intros (e & -> & Ht & <-). by rewrite bool_decide_eq_true_2.
Qed.

Lemma live_absent c t k : c !! k = None → live c t k = None.
Proof. unfold live. by intros ->. Qed.

Lemma status_of_completed_field (rec : gmap string Val) :
  rec !! "status" = Some (VStr "completed") → status_of rec = Some Completed.
Proof. unfold status_of. by intros ->. Qed.

(** C1: when the record of a task is completed and its artifact is on
    storage, the download answers 200 with the bytes of the artifact and a
    Content-Disposition header, and leaves a world with neither the record
    nor the file.  After that, whatever the system does next, a download of
    the same identifier answers 404, and the file stays absent as long as no
    later run writes an artifact at the same path. *)
Theorem download_is_one_shot
    (json_loads : string → PyResult Json) (normalize_url : Json → PyResult string)
    (w : World) (task_id : string) (rec : gmap string Val)
    (path : string) (bytes : Bytes) :
  reachable json_loads normalize_url w →
  live (cache w) (now w) task_id = Some rec →
  rec !! "status" = Some (VStr "completed") →
  rec !! "file" = Some (VStr path) →
  lookup_file (fs w) path = Some bytes →
  ∃ w',
    download_task_file task_id w
    = (Ok (mkResponse 200 "application/octet-stream"
             [("Content-Disposition", content_disposition path)]
             (FileContent bytes)), w')
    ∧ cache w' !! task_id = None
    ∧ lookup_file (fs w') path = None
    ∧ ∀ es w'',
        exec json_loads normalize_url es w' = Some w'' →
        download_task_file task_id w''
        = (Ok (JsonResponse {[ "error" := VStr "File not ready or task not found" ]} 404),
           w'')
        ∧ (Forall (λ e, artifact_written e ≠ Some path) es →
           lookup_file (fs w'') path = None).
Proof.
  intros Hreach Hl Hs Hf Hb.
  pose proof (reachable_inv _ _ _ Hreach) as HI.
  eexists. split; [by eapply download_served|].
  apply live_Some in Hl as (e0 & Hc & _ & Hv). subst rec.
  assert (lookup_file (delete path (fs w)) path = None) as Hgone.
  { unfold lookup_file. case_bool_decide; [done|]. apply lookup_delete_eq. }
  cbn. split; [apply lookup_delete_eq|]. split; [done|].
  intros es w'' Hrun. split.
  - assert (purged task_id w'') as (Hnone & _ & _).
    { eapply purged_exec; [|done]. split; [|split]; cbn.
      - apply lookup_delete_eq.
      - apply (inv_terminal w HI task_id e0 Completed); [done| |done].
        by apply status_of_completed_field.
      - by eapply inv_cache_drawn. }
    apply download_not_ready. intros rec'.
    rewrite (live_absent _ _ _ Hnone). by intros [=].
  - intros Hall.
    eapply (fs_exec json_loads normalize_url es _ w'' path Hall); [|exact Hrun].
    exact Hgone.
Qed.

(** C4: along every schedule, one event later the record of a task is
    gone (deleted or expired), or carries a status no earlier in the order
    pending, processing, completed-or-error; and when the status was
    completed or error the record, if still there, is the very same. *)
Theorem status_moves_forward
    (json_loads : string → PyResult Json) (normalize_url : Json → PyResult string)
    (w : World) (e : Event) (task_id : string) (rec : gmap string Val) :
  reachable json_loads normalize_url w →
  enabled e w = true →
  live (cache w) (now w) task_id = Some rec →
  live (cache (apply_event json_loads normalize_url e w))
       (now (apply_event json_loads normalize_url e w)) task_id = None
  ∨ ∃ rec',
      live (cache (apply_event json_loads normalize_url e w))
           (now (apply_event json_loads normalize_url e w)) task_id = Some rec'
      ∧ forward rec rec'.
Proof.
  intros Hreach Hen Hl.
  pose proof (reachable_inv _ _ _ Hreach) as HI.
  apply live_Some in Hl as (e0 & Hc & Hexp & Hv). subst rec.
  destruct (entry_step json_loads normalize_url e w task_id e0 HI Hen Hc)
    as (Hnow & [Hsame|[Hnone|(e1 & s & s' & Hnew & Hexp1 & Hs & Ht & Hs' & Hs'ne)]]).
  - destruct (live _ _ task_id) as [rec'|] eqn:Hl'; [|by left].
    right. exists rec'. split; [done|].
    apply live_Some in Hl' as (e' & He' & _ & <-).
    rewrite Hsame in He'. injection He' as <-.
    destruct (inv_status w HI task_id e0 Hc) as [s Hs].
    exists s, s. done.
  - left. by apply live_absent.
  - right. exists (value e1). split.
    + apply live_Some. exists e1. split; [done|]. split; [lia|done].
    + exists s, s'. split; [done|]. split; [done|]. split.
      * destruct s, s'; cbn in *; try done; lia.
      * by rewrite Ht.
Qed.

(** C5: with no live record under the identifier, the status query and
    the download both answer 404; the download also answers 404 when the
    record is there with a status other than completed, and when the record
    is completed but names no file or a file that is not on storage.  None
    of these calls changes the world. *)
Theorem absent_is_not_found (task_id : string) (w : World) :
  (live (cache w) (now w) task_id = None →
   get_task_status task_id w
   = (Ok (JsonResponse {[ "error" := VStr "Task not found" ]} 404), w)
   ∧ download_task_file task_id w
     = (Ok (JsonResponse {[ "error" := VStr "File not ready or task not found" ]} 404), w))
  ∧ (∀ rec,
       live (cache w) (now w) task_id = Some rec →
       rec !! "status" ≠ Some (VStr "completed") →
       download_task_file task_id w
       = (Ok (JsonResponse {[ "error" := VStr "File not ready or task not found" ]} 404), w))
  ∧ (∀ rec,
       live (cache w) (now w) task_id = Some rec →
       rec !! "status" = Some (VStr "completed") →
       (rec !! "file" = None
        ∨ ∃ path, rec !! "file" = Some (VStr path) ∧ lookup_file (fs w) path = None) →
       download_task_file task_id w
       = (Ok (JsonResponse {[ "error" := VStr "File not found" ]} 404), w)).
Proof.
  split; [|split].
  - intros Hl. split.
    + unfold get_task_status, bind, cache_get, ret. by rewrite Hl.
    + apply download_not_ready. intros rec. by rewrite Hl.
  - intros rec Hl Hs. apply download_not_ready. intros rec'. rewrite Hl.
    by intros [= <-].
  - intros rec Hl Hs Hf. by eapply download_file_missing.
Qed.

(** C6: a POST whose body yields a normalized URL is answered 202 with
    the identifier just drawn.  That identifier had no record and no job
    before; right after the call, with the job still waiting in the pool,
    its record is exactly [{status: pending, progress: 0}], live for the
    1800 seconds that follow and not beyond. *)
Theorem submission_creates_pending
    (json_loads : string → PyResult Json) (normalize_url : Json → PyResult string)
    (request : HttpRequest) (u : string) (w : World) (sitemap_url : string) :
  reachable json_loads normalize_url w →
  u ∉ drawn w →
  method request = "POST" →
  requested_url json_loads normalize_url request = Ok sitemap_url →
  ∃ w',
    start_sitemap_processing json_loads normalize_url request u w
    = (Ok (JsonResponse {[ "task_id" := VStr u ]} 202), w')
    ∧ cache w !! u = None
    ∧ (u ∉ job_id <$> pool w)
    ∧ cache w' !! u
      = Some (mkEntry {[ "status" := VStr "pending"; "progress" := VInt 0 ]}
                      (now w + 1800))
    ∧ (∀ t, live (cache w') t u
            = if bool_decide (t < now w + 1800)
              then Some {[ "status" := VStr "pending"; "progress" := VInt 0 ]}
              else None)
    ∧ pool w' = (pool w ++ [mkJob u sitemap_url])%list
    ∧ now w' = now w.
Proof.
  intros Hreach Hu Hm Hr.
  pose proof (reachable_inv _ _ _ Hreach) as HI.
  eexists. split; [by apply submit_accepted|]. cbn.
  split; [|split; [|split; [|split]]].
  - destruct (cache w !! u) as [e|] eqn:Hc; [|done].
    exfalso. apply Hu. by eapply inv_cache_drawn.
  - intros (j & -> & Hj)%list_elem_of_fmap. apply Hu. by eapply inv_pool_drawn.
  - apply lookup_insert_eq.
  - intros t. unfold live. by rewrite lookup_insert_eq.
  - done.
Qed.

(** C7: when [normalize_url] raises, the caller gets 400 with the text of
    the exception and the world is unchanged: no record, no identifier
    drawn, no job pooled.  Any call answered 202 has appended exactly one
    job to the pool, and any other answer leaves the world as it was. *)
Theorem rejected_submission_schedules_nothing
    (json_loads : string → PyResult Json) (normalize_url : Json → PyResult string)
    (request : HttpRequest) (u : string) (w : World) :
  (∀ data raw e,
     method request = "POST" →
     json_loads (body request) = Ok data →
     py_get data "sitemap_url" = Ok raw →
     normalize_url raw = Raise e →
     start_sitemap_processing json_loads normalize_url request u w
     = (Ok (JsonResponse {[ "error" := VStr (str e) ]} 400), w))
  ∧ (∀ r w',
       start_sitemap_processing json_loads normalize_url request u w = (Ok r, w') →
       status_code r = 202 →
       ∃ sitemap_url, pool w' = (pool w ++ [mkJob u sitemap_url])%list
                      ∧ List.length (pool w') = S (List.length (pool w)))
  ∧ (∀ r w',
       start_sitemap_processing json_loads normalize_url request u w = (Ok r, w') →
       status_code r ≠ 202 → w' = w).
Proof.
  split; [|split].
  - intros data raw e Hm Hj Hg Hn. apply submit_rejected; [done|].
    unfold requested_url. by rewrite Hj, Hg.
  - intros r w' Hcall Hcode.
    destruct (submit_cases json_loads normalize_url request u w)
      as [(r0 & Heq & Hne)|(url & _ & _ & Heq)]; rewrite Heq in Hcall.
    + injection Hcall as <- <-. done.
    + injection Hcall as <- <-. exists url. cbn. split; [done|].
      rewrite length_app. cbn. lia.
  - intros r w' Hcall Hcode.
    destruct (submit_cases json_loads normalize_url request u w)
      as [(r0 & Heq & Hne)|(url & _ & _ & Heq)]; rewrite Heq in Hcall.
    + by injection Hcall as <- <-.
    + injection Hcall as <- <-. done.
Qed.

(** C9: a status query returns the world it was given, and so does any
    sequence of status queries, whatever identifiers it asks for and in
    whatever order; no query raises. *)
Theorem status_query_reads_only (task_ids : list string) (w : World) :
  (∀ task_id, ∃ r, get_task_status task_id w = (Ok r, w))
  ∧ ∃ rs, poll_all task_ids w = (Ok rs, w)
         ∧ Forall2 (λ task_id r, get_task_status task_id w = (Ok r, w)) task_ids rs.
Proof.
  assert (∀ task_id, ∃ r, get_task_status task_id w = (Ok r, w)) as Hone.
  { intros task_id. unfold get_task_status, bind, cache_get, ret.
    destruct (falsy_task _); eauto. }
  split; [done|].
  induction task_ids as [|t ts (rs & IH & Hall)]; cbn.
  - exists []. split; [done|]. constructor.
  - destruct (Hone t) as [r Hr]. exists (r :: rs).
    unfold bind at 1. rewrite Hr. unfold bind at 1. rewrite IH.
    split; [done|]. by constructor.
Qed.

(** C10: a request to the submission endpoint with a method other than
    POST is answered 405 with the error "Invalid request method", and the
    world is unchanged: no record is created and no job is pooled. *)
Theorem non_post_is_rejected
    (json_loads : string → PyResult Json) (normalize_url : Json → PyResult string)
    (request : HttpRequest) (u : string) (w : World) :
  method request ≠ "POST" →
  start_sitemap_processing json_loads normalize_url request u w
  = (Ok (JsonResponse {[ "error" := VStr "Invalid request method" ]} 405), w).
Proof. apply submit_not_post. Qed.

(** C2, as the code has it: whatever was under the key before, and also
    when nothing was, a run of the pipeline ends by putting under its
    identifier a record that is exactly [{status: completed, file: path}]
    or exactly [{status: error, error: message}], with no progress field,
    to expire 1800 seconds after the write. *)
Theorem terminal_write_replaces_record
    (sitemap_url task_id : string) (run : Run) (w : World) :
  cache (snd (process_task sitemap_url task_id run w)) !! task_id
  = Some (mkEntry (outcome_record run) (now w + 1800))
  ∧ live (cache (snd (process_task sitemap_url task_id run w)))
         (now (snd (process_task sitemap_url task_id run w))) task_id
    = Some (outcome_record run)
  ∧ ((∃ path bytes,
        first_failure run = None ∧ save_out run = Ok (path, bytes)
        ∧ outcome_record run
          = {[ "status" := VStr "completed"; "file" := VStr path ]})
     ∨ (∃ e,
          first_failure run = Some e
          ∧ outcome_record run
            = {[ "status" := VStr "error"; "error" := VStr (str e) ]}))
  ∧ outcome_record run !! "progress" = None.
Proof.
  destruct (process_task_spec sitemap_url task_id run w)
    as (w' & -> & Hnew & _ & Hnow & _ & _).
  cbn. split; [done|]. split; [|split].
  - apply live_Some. eexists. split; [done|]. cbn. split; [lia|done].
  - destruct (outcome_record_cases run) as [(e & He & Hr)|(path & bytes & Hn & Hs & Hr)].
    + right. by exists e.
    + left. by exists path, bytes.
  - by destruct (outcome_record_cases run)
      as [(e & _ & ->)|(path & bytes & _ & _ & ->)].
Qed.

(** C2, as stated, fails: over a record that is processing at 40 percent
    the terminal write leaves no progress field, where the update of the
    contract keeps it; and over an empty store the pipeline creates the
    record, where the update of the contract fails with NotFound. *)
Lemma terminal_write_is_not_an_update :
  (live (cache progressing_world) 0 "t1" ≫= (.!! "progress")) = Some (VInt 40)
  ∧ (live (cache (snd (process_task "https://example.com/sitemap.xml" "t1"
                         quiet_run progressing_world))) 0 "t1"
     ≫= (.!! "progress")) = None
  ∧ (live (cache (snd (TaskStore_update "t1" (completed_record "/tmp/t1.csv") 1800
                         progressing_world))) 0 "t1"
     ≫= (.!! "progress")) = Some (VInt 40)
  ∧ live (cache empty_world) 0 "t1" = None
  ∧ fst (TaskStore_update "t1" (completed_record "/tmp/t1.csv") 1800 empty_world)
    = Raise (NotFound "t1")
  ∧ live (cache (snd (process_task "https://example.com/sitemap.xml" "t1"
                        quiet_run empty_world))) 0 "t1"
    = Some (completed_record "/tmp/t1.csv").
Proof. repeat split; reflexivity. Qed.

(** C3, as the code has it: when a step of the run fails with [e], the
    record of the task becomes exactly [{status: error, error: str(e)}],
    live for 1800 seconds; its message is [str(e)], non-empty whenever that
    text is.  The call of [process_task] ends with what its cleanup yields,
    not with [e], and the submission handler never ends with an exception. *)
Theorem failed_run_records_error
    (json_loads : string → PyResult Json) (normalize_url : Json → PyResult string)
    (sitemap_url task_id : string) (run : Run) (w : World) (e : PyExn) :
  first_failure run = Some e →
  live (cache (snd (process_task sitemap_url task_id run w)))
       (now (snd (process_task sitemap_url task_id run w))) task_id
  = Some {[ "status" := VStr "error"; "error" := VStr (str e) ]}
  ∧ cache (snd (process_task sitemap_url task_id run w)) !! task_id
    = Some (mkEntry (error_record (str e)) (now w + 1800))
  ∧ (str e ≠ "" →
     ∃ msg, msg ≠ ""
            ∧ error_record (str e) !! "error" = Some (VStr msg))
  ∧ fst (process_task sitemap_url task_id run w) = cleanup_outcome run
  ∧ (∀ request u w0,
       ∃ r w1, start_sitemap_processing json_loads normalize_url request u w0
               = (Ok r, w1)).
Proof.
  intros Hfail.
  assert (outcome_record run = error_record (str e)) as Hrec.
  { destruct (outcome_record_cases run) as [(e' & He' & ->)|(? & ? & Hnone & _)];
      congruence. }
  destruct (process_task_spec sitemap_url task_id run w)
    as (w' & -> & Hnew & _ & Hnow & _ & _).
  cbn. rewrite Hrec in Hnew. split; [|split; [done|split; [|split; [done|]]]].
  - apply live_Some. eexists. split; [done|]. cbn. split; [lia|done].
  - intros Hne. by exists (str e).
  - intros request u w0.
    destruct (submit_cases json_loads normalize_url request u w0)
      as [(r & -> & _)|(url & _ & _ & ->)]; eauto.
Qed.

(** C3, as stated, fails: when the sitemap fetch raises an exception
    without text, the record ends in status error with the empty message. *)
Lemma error_message_can_be_empty :
  first_failure silent_failure_run = Some (Exn "TimeoutError" "")
  ∧ (live (cache (snd (process_task "https://example.com/sitemap.xml" "t1"
                         silent_failure_run submitted_world))) 0 "t1"
     ≫= (.!! "status")) = Some (VStr "error")
  ∧ ¬ ∃ msg, msg ≠ ""
             ∧ (live (cache (snd (process_task "https://example.com/sitemap.xml" "t1"
                                    silent_failure_run submitted_world))) 0 "t1"
                ≫= (.!! "error")) = Some (VStr msg).
Proof.
  split; [reflexivity|]. split; [reflexivity|].
  intros (msg & Hne & Heq). apply Hne.
  assert ((live (cache (snd (process_task "https://example.com/sitemap.xml" "t1"
                              silent_failure_run submitted_world))) 0 "t1"
           ≫= (.!! "error")) = Some (VStr "")) as Hempty by reflexivity.
  rewrite Hempty in Heq. by injection Heq as <-.
Qed.

(** C8: the cleanup of [process_task] raises whenever the run failed
    before both locals were assigned: [del urls] raises UnboundLocalError
    after a failed sitemap fetch, [del results] after a failed URL
    processing, and [gc.collect()] is not reached. *)
Theorem cleanup_raises_after_early_failure
    (sitemap_url task_id : string) (w : World) :
  (∀ e ps po so,
     fst (process_task sitemap_url task_id (mkRun (Raise e) ps po so) w)
     = Raise (UnboundLocalError "urls"))
  ∧ (∀ us e ps so,
       fst (process_task sitemap_url task_id (mkRun (Ok us) ps (Raise e) so) w)
       = Raise (UnboundLocalError "results")).
Proof.
  split.
  - intros e ps po so.
    destruct (process_task_spec sitemap_url task_id (mkRun (Raise e) ps po so) w)
      as (w' & -> & _). done.
  - intros us e ps so.
    destruct (process_task_spec sitemap_url task_id (mkRun (Ok us) ps (Raise e) so) w)
      as (w' & -> & _). done.
Qed.

(** The cleanup succeeds when the fetch and the processing both succeeded,
    whether or not the artifact could be written. *)
Lemma cleanup_succeeds_after_processing sitemap_url task_id us ps rs so w :
  fst (process_task sitemap_url task_id (mkRun (Ok us) ps (Ok rs) so) w) = Ok ().
Proof.
  destruct (process_task_spec sitemap_url task_id (mkRun (Ok us) ps (Ok rs) so) w)
    as (w' & -> & _). done.
Qed.

(** A progress report followed by the rest of the run is the run that
    starts with that report: the event [EProgress] splits nothing off that
    [process_task] would not do itself. *)
Lemma process_task_after_report sitemap_url task_id us p ps po so w :
  process_task sitemap_url task_id (mkRun (Ok us) (p :: ps) po so) w
  = process_task sitemap_url task_id (mkRun (Ok us) ps po so)
      (snd (report_progress task_id p w)).
Proof.
  unfold process_task, process_task_body, try_finally, try_except, bind, lift,
    fetch_sitemap_urls, process_sitemap_urls, call, bind. cbn.
  rewrite !report_all_spec. reflexivity.
Qed.

(** ** The claims at sample inputs *)

Lemma empty_world_reachable :
  reachable sample_json_loads sample_normalize_url empty_world.
Proof. exists empty_world, []. by repeat split. Qed.

Lemma completed_world_reachable :
  reachable sample_json_loads sample_normalize_url completed_world.
Proof.
  exists empty_world, sample_schedule. split; [by repeat split|].
  vm_compute. reflexivity.
Qed.

Lemma download_is_one_shot_witness :
  ∃ w',
    download_task_file "t1" completed_world
    = (Ok (mkResponse 200 "application/octet-stream"
             [("Content-Disposition", content_disposition "/tmp/t1.csv")]
             (FileContent [Byte.x75; Byte.x72; Byte.x6c])), w')
    ∧ cache w' !! "t1" = None
    ∧ lookup_file (fs w') "/tmp/t1.csv" = None
    ∧ ∀ es w'',
        exec sample_json_loads sample_normalize_url es w' = Some w'' →
        download_task_file "t1" w''
        = (Ok (JsonResponse {[ "error" := VStr "File not ready or task not found" ]} 404),
           w'')
        ∧ (Forall (λ e, artifact_written e ≠ Some "/tmp/t1.csv") es →
           lookup_file (fs w'') "/tmp/t1.csv" = None).
Proof.
  apply (download_is_one_shot sample_json_loads sample_normalize_url
           completed_world "t1" (completed_record "/tmp/t1.csv")).
  - exact completed_world_reachable.
  - vm_compute. reflexivity.
  - reflexivity.
  - reflexivity.
  - vm_compute. reflexivity.
Defined.

Lemma status_moves_forward_witness :
  live (cache (apply_event sample_json_loads sample_normalize_url
                 (EDownload "t1") completed_world))
       (now (apply_event sample_json_loads sample_normalize_url
               (EDownload "t1") completed_world)) "t1" = None
  ∨ ∃ rec',
      live (cache (apply_event sample_json_loads sample_normalize_url
                     (EDownload "t1") completed_world))
           (now (apply_event sample_json_loads sample_normalize_url
                   (EDownload "t1") completed_world)) "t1" = Some rec'
      ∧ forward (completed_record "/tmp/t1.csv") rec'.
Proof.
  apply (status_moves_forward sample_json_loads sample_normalize_url
           completed_world (EDownload "t1") "t1" (completed_record "/tmp/t1.csv")).
  - exact completed_world_reachable.
  - reflexivity.
  - vm_compute. reflexivity.
Defined.

Lemma absent_is_not_found_witness :
  (get_task_status "t0" empty_world
   = (Ok (JsonResponse {[ "error" := VStr "Task not found" ]} 404), empty_world)
   ∧ download_task_file "t0" empty_world
     = (Ok (JsonResponse {[ "error" := VStr "File not ready or task not found" ]} 404),
        empty_world))
  ∧ download_task_file "t1" submitted_world
    = (Ok (JsonResponse {[ "error" := VStr "File not ready or task not found" ]} 404),
       submitted_world)
  ∧ download_task_file "t1" orphan_world
    = (Ok (JsonResponse {[ "error" := VStr "File not found" ]} 404), orphan_world).
Proof.
  split; [|split].
  - apply (proj1 (absent_is_not_found "t0" empty_world)). reflexivity.
  - apply (proj1 (proj2 (absent_is_not_found "t1" submitted_world)) pending_record).
    + vm_compute. reflexivity.
    + vm_compute. discriminate.
  - apply (proj2 (proj2 (absent_is_not_found "t1" orphan_world))
             (completed_record "/tmp/t1.csv")).
    + vm_compute. reflexivity.
    + reflexivity.
    + right. exists "/tmp/t1.csv". split; reflexivity.
Defined.

Lemma submission_creates_pending_witness :
  ∃ w',
    start_sitemap_processing sample_json_loads sample_normalize_url
      sample_request "t1" empty_world
    = (Ok (JsonResponse {[ "task_id" := VStr "t1" ]} 202), w')
    ∧ cache empty_world !! "t1" = None
    ∧ ("t1" ∉ job_id <$> pool empty_world)
    ∧ cache w' !! "t1"
      = Some (mkEntry {[ "status" := VStr "pending"; "progress" := VInt 0 ]}
                      (now empty_world + 1800))
    ∧ (∀ t, live (cache w') t "t1"
            = if bool_decide (t < now empty_world + 1800)
              then Some {[ "status" := VStr "pending"; "progress" := VInt 0 ]}
              else None)
    ∧ pool w' = (pool empty_world
                 ++ [mkJob "t1" "https://example.com/sitemap.xml"])%list
    ∧ now w' = now empty_world.
Proof.
  apply (submission_creates_pending sample_json_loads sample_normalize_url
           sample_request "t1" empty_world "https://example.com/sitemap.xml").
  - exact empty_world_reachable.
  - apply not_elem_of_empty.
  - reflexivity.
  - reflexivity.
Defined.

Lemma rejected_submission_schedules_nothing_witness :
  start_sitemap_processing sample_json_loads sample_normalize_url
    bad_url_request "t1" empty_world
  = (Ok (JsonResponse {[ "error" := VStr "Invalid URL" ]} 400), empty_world)
  ∧ (∃ sitemap_url,
       pool submitted_world = (pool empty_world ++ [mkJob "t1" sitemap_url])%list
       ∧ List.length (pool submitted_world) = S (List.length (pool empty_world)))
  ∧ snd (start_sitemap_processing sample_json_loads sample_normalize_url
           get_request "t1" empty_world) = empty_world.
Proof.
  split; [|split].
  - apply (proj1 (rejected_submission_schedules_nothing
                    sample_json_loads sample_normalize_url
                    bad_url_request "t1" empty_world)
             (JObj [("sitemap_url", JNum 7)]) (JNum 7) (Exn "ValueError" "Invalid URL"));
      reflexivity.
  - apply (proj1 (proj2 (rejected_submission_schedules_nothing
                           sample_json_loads sample_normalize_url
                           sample_request "t1" empty_world))
             (JsonResponse {[ "task_id" := VStr "t1" ]} 202) submitted_world);
      reflexivity.
  - apply (proj2 (proj2 (rejected_submission_schedules_nothing
                           sample_json_loads sample_normalize_url
                           get_request "t1" empty_world))
             (JsonResponse {[ "error" := VStr "Invalid request method" ]} 405)).
    + reflexivity.
    + discriminate.
Defined.

Lemma non_post_is_rejected_witness :
  start_sitemap_processing sample_json_loads sample_normalize_url
    get_request "t1" empty_world
  = (Ok (JsonResponse {[ "error" := VStr "Invalid request method" ]} 405), empty_world).
Proof.
  apply (non_post_is_rejected sample_json_loads sample_normalize_url
           get_request "t1" empty_world).
  discriminate.
Defined.

Lemma failed_run_records_error_witness :
  live (cache (snd (process_task "https://example.com/sitemap.xml" "t1"
                      refused_run submitted_world)))
       (now (snd (process_task "https://example.com/sitemap.xml" "t1"
                    refused_run submitted_world))) "t1"
  = Some {[ "status" := VStr "error"; "error" := VStr "Connection refused" ]}.
Proof.
  apply (failed_run_records_error sample_json_loads sample_normalize_url
           "https://example.com/sitemap.xml" "t1" refused_run submitted_world
           (Exn "ConnectionError" "Connection refused")).
  reflexivity.
Defined.

(** * Further properties of the handlers *)

Lemma status_of_empty : status_of ∅ = None.
Proof. reflexivity. Qed.

Lemma absent_is_not_found_cases task_id w :
  live (cache w) (now w) task_id = None →
  get_task_status task_id w
  = (Ok (JsonResponse {[ "error" := VStr "Task not found" ]} 404), w)
  ∧ download_task_file task_id w
    = (Ok (JsonResponse {[ "error" := VStr "File not ready or task not found" ]} 404), w).
Proof.
  intros Hl. split.
  - unfold get_task_status, bind, cache_get, ret. by rewrite Hl.
  - apply download_not_ready. intros rec. by rewrite Hl.
Qed.

(** While a record is live, the status query answers 200 with that record,
    field for field, and changes nothing. *)
Theorem status_returns_snapshot
    (json_loads : string → PyResult Json) (normalize_url : Json → PyResult string)
    (w : World) (task_id : string) (rec : gmap string Val) :
  reachable json_loads normalize_url w →
  live (cache w) (now w) task_id = Some rec →
  get_task_status task_id w = (Ok (JsonResponse rec 200), w).
Proof.
  intros Hreach Hl. apply get_task_status_found; [done|].
  pose proof (reachable_inv _ _ _ Hreach) as HI.
  apply live_Some in Hl as (e & Hc & _ & <-).
  destruct (inv_status w HI task_id e Hc) as [s Hs].
  intros Hempty. rewrite Hempty, status_of_empty in Hs. done.
Qed.


(** Once the entry of a task has expired, the status query and the
    download both answer 404 and change nothing: a completed task that
    nobody downloaded in time keeps its artifact on storage. *)
Theorem expired_task_is_invisible (task_id : string) (w : World) (e : Entry) :
  cache w !! task_id = Some e →
  expires_at e ≤ now w →
  get_task_status task_id w
  = (Ok (JsonResponse {[ "error" := VStr "Task not found" ]} 404), w)
  ∧ download_task_file task_id w
    = (Ok (JsonResponse {[ "error" := VStr "File not ready or task not found" ]} 404), w)
  ∧ ∀ path, value e !! "file" = Some (VStr path) →
            fs (snd (download_task_file task_id w)) !! path = fs w !! path.
Proof.
  intros Hc Hexp.
  assert (live (cache w) (now w) task_id = None) as Hl.
  { unfold live. rewrite Hc. rewrite bool_decide_eq_false_2; [done|lia]. }
  destruct (absent_is_not_found_cases task_id w Hl) as [Hs Hd].
  split; [done|]. split; [done|]. intros path _. by rewrite Hd.
Qed.

Section Further.

Variable json_loads : string → PyResult Json.
Variable normalize_url : Json → PyResult string.

Local Abbreviation submit := (start_sitemap_processing json_loads normalize_url).
Local Abbreviation after := (apply_event json_loads normalize_url).
Local Abbreviation run_schedule := (exec json_loads normalize_url).

Lemma ttl_step e w :
  enabled e w = true → ttl_bounded w → ttl_bounded (after e w).
Proof.
  intros Hen Hb.
  destruct e as [request u|tid|tid|j p|j run|dt];
    cbn [enabled apply_event] in *;
    try apply bool_decide_eq_true in Hen.
  - destruct (submit_cases json_loads normalize_url request u w)
      as [(r & -> & _)|(url & _ & _ & ->)]; [done|].
    intros k e. cbn. rewrite lookup_insert. case_decide.
    + intros [= <-]. cbn. lia.
    + apply Hb.
  - by rewrite get_task_status_world.
  - destruct (download_task_file_cases tid w)
      as [->|(rec & path & _ & _ & ->)]; [done|].
    intros k e. cbn. intros [_ Hl]%lookup_delete_Some. by eapply Hb.
  - intros k e. cbn. rewrite lookup_insert. case_decide.
    + intros [= <-]. cbn. lia.
    + apply Hb.
  - destruct (process_task_spec (job_url j) (job_id j) run
                (with_pool (remove_job j (pool w)) w))
      as (w' & -> & Hnew & Hother & Hnow & _ & _).
    cbn in *. intros k e Hl. rewrite Hnow.
    destruct (decide (k = job_id j)) as [->|Hk].
    + rewrite Hnew in Hl. injection Hl as <-. cbn. lia.
    + rewrite Hother in Hl by done. by eapply Hb.
  - intros k e Hl. cbn in *. specialize (Hb k e Hl). lia.
Qed.

Lemma ttl_exec es w w' :
  ttl_bounded w → run_schedule es w = Some w' → ttl_bounded w'.
Proof.
  revert w. induction es as [|e es IH]; intros w Hb; cbn.
  - by intros [= <-].
  - destruct (enabled e w) eqn:Hen; [|done]. apply IH. by apply ttl_step.
Qed.

Lemma retired_step e w task_id :
  enabled e w = true → retired task_id w → retired task_id (after e w).
Proof.
  intros Hen (Hp & Hd).
  destruct e as [request u|tid|tid|j p|j run|dt];
    cbn [enabled apply_event] in *;
    try apply bool_decide_eq_true in Hen.
  - destruct (submit_cases json_loads normalize_url request u w)
      as [(r & -> & _)|(url & _ & _ & ->)]; [done|].
    split; cbn.
    + rewrite fmap_app. intros [Hin|Hin%list_elem_of_singleton]%elem_of_app; [done|].
      cbn in Hin. by subst u.
    + by apply elem_of_union_r.
  - by rewrite get_task_status_world.
  - by destruct (download_task_file_cases tid w)
      as [->|(rec & path & _ & _ & ->)].
  - done.
  - destruct (process_task_spec (job_url j) (job_id j) run
                (with_pool (remove_job j (pool w)) w))
      as (w' & -> & _ & _ & _ & Hpool & Hdrawn).
    cbn in *. split.
    + rewrite Hpool. intros Hin. apply Hp. by eapply remove_job_ids_subseteq.
    + by rewrite Hdrawn.
  - done.
Qed.

Lemma retired_exec es w w' task_id :
  retired task_id w → run_schedule es w = Some w' → retired task_id w'.
Proof.
  revert w. induction es as [|e es IH]; intros w Hr; cbn.
  - by intros [= <-].
  - destruct (enabled e w) eqn:Hen; [|done]. apply IH. by apply retired_step.
Qed.

End Further.

(** Along every schedule no entry of the cache expires later than 1800
    seconds from now; so when 1800 seconds pass without a write, every
    task answers 404 to the status query. *)
Theorem records_expire_within_ttl
    (json_loads : string → PyResult Json) (normalize_url : Json → PyResult string)
    (w : World) (dt : Z) :
  reachable json_loads normalize_url w →
  1800 ≤ dt →
  (∀ k e, cache w !! k = Some e → expires_at e ≤ now w + 1800)
  ∧ ∀ task_id,
      get_task_status task_id (apply_event json_loads normalize_url (ETick dt) w)
      = (Ok (JsonResponse {[ "error" := VStr "Task not found" ]} 404),
         apply_event json_loads normalize_url (ETick dt) w).
Proof.
  intros (w0 & es & (Hc & _ & _) & Hrun) Hdt.
  assert (ttl_bounded w) as Hb.
  { eapply ttl_exec; [|done]. intros k e. rewrite Hc. by rewrite lookup_empty. }
  split; [done|]. intros task_id.
  apply absent_is_not_found_cases. cbn. unfold live.
  destruct (cache w !! task_id) as [e|] eqn:Hl; [|done].
  specialize (Hb task_id e Hl). rewrite bool_decide_eq_false_2; [done|lia].
Qed.

(** Tasks do not interfere: an event leaves the cache entry of every
    identifier other than its own exactly as it was. *)
Theorem other_tasks_untouched
    (json_loads : string → PyResult Json) (normalize_url : Json → PyResult string)
    (e : Event) (w : World) (k : string) :
  subject e ≠ Some k →
  cache (apply_event json_loads normalize_url e w) !! k = cache w !! k.
Proof.
  intros Hk.
  destruct e as [request u|tid|tid|j p|j run|dt]; cbn [apply_event subject] in *.
  - destruct (submit_cases json_loads normalize_url request u w)
      as [(r & -> & _)|(url & _ & _ & ->)]; [done|].
    cbn. rewrite lookup_insert_ne; [done|]. congruence.
  - by rewrite get_task_status_world.
  - destruct (download_task_file_cases tid w)
      as [->|(rec & path & _ & _ & ->)]; [done|].
    cbn. rewrite lookup_delete_ne; [done|]. congruence.
  - cbn. rewrite lookup_insert_ne; [done|]. congruence.
  - destruct (process_task_spec (job_url j) (job_id j) run
                (with_pool (remove_job j (pool w)) w))
      as (w' & -> & _ & Hother & _).
    cbn. rewrite Hother; [done|]. congruence.
  - done.
Qed.

(** The pipeline of a task runs once: when a pooled job has finished, no
    job with its identifier is in the pool again, whatever happens next,
    so neither its pipeline nor a progress report of it can run again. *)
Theorem job_runs_once
    (json_loads : string → PyResult Json) (normalize_url : Json → PyResult string)
    (w : World) (j : Job) (run : Run) (es : list Event) (w' : World) :
  reachable json_loads normalize_url w →
  j ∈ pool w →
  exec json_loads normalize_url es
    (apply_event json_loads normalize_url (EFinish j run) w) = Some w' →
  (job_id j ∉ job_id <$> pool w')
  ∧ (∀ j' run', job_id j' = job_id j → enabled (EFinish j' run') w' = false)
  ∧ (∀ j' p, job_id j' = job_id j → enabled (EProgress j' p) w' = false).
Proof.
  intros Hreach Hj Hrun.
  pose proof (reachable_inv _ _ _ Hreach) as HI.
  assert (retired (job_id j) w') as [Hp _].
  { eapply retired_exec; [|done]. cbn.
    destruct (process_task_spec (job_url j) (job_id j) run
                (with_pool (remove_job j (pool w)) w))
      as (w1 & -> & _ & _ & _ & Hpool & Hdrawn).
    cbn in *. split.
    - rewrite Hpool. apply remove_job_gone; [|done]. by destruct HI.
    - rewrite Hdrawn. by eapply inv_pool_drawn. }
  split; [done|].
  assert (∀ j', job_id j' = job_id j → j' ∉ pool w') as Hnot.
  { intros j' Hid Hin. apply Hp. rewrite <- Hid. apply list_elem_of_fmap. eauto. }
  split; intros j' ? Hid; cbn; apply bool_decide_eq_false_2; by apply Hnot.
Qed.

(** The submission handler always returns a response, and its status code
    tells the three cases apart: 405 exactly for a method other than POST,
    202 exactly for a POST whose body yields a normalized URL, 400 exactly
    for a POST where parsing, the key lookup or the normalization raises. *)
Theorem submission_status_codes
    (json_loads : string → PyResult Json) (normalize_url : Json → PyResult string)
    (request : HttpRequest) (u : string) (w : World) :
  ∃ r w',
    start_sitemap_processing json_loads normalize_url request u w = (Ok r, w')
    ∧ (status_code r = 405 ↔ method request ≠ "POST")
    ∧ (status_code r = 202
       ↔ method request = "POST"
         ∧ ∃ url, requested_url json_loads normalize_url request = Ok url)
    ∧ (status_code r = 400
       ↔ method request = "POST"
         ∧ ∃ e, requested_url json_loads normalize_url request = Raise e).
Proof.
  destruct (decide (method request = "POST")) as [Hm|Hm].
  - destruct (requested_url json_loads normalize_url request) as [url|e] eqn:Hr.
    + rewrite (submit_accepted _ _ _ _ _ _ Hm Hr). eexists _, _. split; [done|].
      cbn. split; [|split]; split; try done; try lia.
      * intros _. eauto.
      * intros (_ & e & He). done.
    + rewrite (submit_rejected _ _ _ _ _ _ Hm Hr). eexists _, _. split; [done|].
      cbn. split; [|split]; split; try done; try lia.
      * intros (_ & url & Hu). done.
      * intros _. eauto.
  - rewrite (submit_not_post _ _ _ _ _ Hm). eexists _, _. split; [done|].
    cbn. split; [|split]; split; try done; try lia.
    + intros [? _]. done.
    + intros [? _]. done.
Qed.

(** A POST whose body is not JSON, or is JSON but not an object, is
    answered 400 with an error text, and nothing is created: the world is
    unchanged. *)
Theorem malformed_body_is_rejected
    (json_loads : string → PyResult Json) (normalize_url : Json → PyResult string)
    (request : HttpRequest) (u : string) (w : World) :
  method request = "POST" →
  ((∃ e, json_loads (body request) = Raise e)
   ∨ (∃ data, json_loads (body request) = Ok data ∧ ∀ kvs, data ≠ JObj kvs)) →
  ∃ text,
    start_sitemap_processing json_loads normalize_url request u w
    = (Ok (JsonResponse {[ "error" := VStr text ]} 400), w).
Proof.
  intros Hm Hbad.
  assert (∃ e, requested_url json_loads normalize_url request = Raise e) as [e He].
  { unfold requested_url. destruct Hbad as [[e ->]|(data & -> & Hnot)]; [eauto|].
    destruct data; cbn; eauto. by destruct (Hnot kvs). }
  exists (str e). by apply submit_rejected.
Qed.

Lemma process_task_artifact sitemap_url task_id run w path bytes :
  first_failure run = None → save_out run = Ok (path, bytes) →
  fs (snd (process_task sitemap_url task_id run w)) !! path = Some bytes.
Proof.
  unfold process_task, process_task_body, try_finally, try_except, bind, lift,
    fetch_sitemap_urls, process_sitemap_urls, save_results_to_csv, call,
    first_failure, bind.
  destruct (fetch_out run) as [us|e1]; cbn; [|done].
  rewrite report_all_spec; cbn.
  destruct (process_out run) as [rs|e2]; cbn; [|done].
  intros _ ->. cbn. apply lookup_insert_eq.
Qed.

(** What a successful run writes is what the download serves: for 1800
    seconds after the run the download of its task answers 200 with
    exactly the bytes the run saved, under the file name of the saved
    path; from then on it answers 404. *)
Theorem finished_task_is_downloadable
    (sitemap_url task_id : string) (run : Run) (w : World)
    (path : string) (bytes : Bytes) (dt : Z) :
  first_failure run = None →
  save_out run = Ok (path, bytes) →
  path ≠ "" →
  0 ≤ dt →
  fst (download_task_file task_id
         (with_now (now w + dt) (snd (process_task sitemap_url task_id run w))))
  = if bool_decide (dt < 1800)
    then Ok (mkResponse 200 "application/octet-stream"
               [("Content-Disposition", content_disposition path)]
               (FileContent bytes))
    else Ok (JsonResponse {[ "error" := VStr "File not ready or task not found" ]} 404).
Proof.
  intros Hok Hsave Hpath Hdt.
  pose proof (process_task_artifact sitemap_url task_id run w path bytes Hok Hsave)
    as Hfile.
  destruct (process_task_spec sitemap_url task_id run w)
    as (w1 & Heq & Hnew & _ & Hnow & _ & _).
  rewrite Heq in Hfile |- *. cbn [snd] in Hfile |- *.
  assert (outcome_record run = completed_record path) as Hrec.
  { destruct (outcome_record_cases run) as [(e & He & _)|(p & b & _ & Hs & ->)];
      congruence. }
  rewrite Hrec in Hnew. case_bool_decide as Hlt.
  - rewrite (download_served task_id _ (completed_record path) path bytes);
      [done| |reflexivity|reflexivity|].
    + apply live_Some. eexists. split; [exact Hnew|]. cbn. split; [lia|done].
    + cbn. unfold lookup_file. by rewrite bool_decide_eq_false_2.
  - rewrite download_not_ready; [done|]. intros rec.
    unfold live. cbn. rewrite Hnew. cbn.
    rewrite bool_decide_eq_false_2; [done|lia].
Qed.

(** After a failed run the status query shows the error record with the
    text of the failure, and the download answers 404: there is nothing to
    fetch for a failed task. *)
Theorem failed_task_is_reported
    (sitemap_url task_id : string) (run : Run) (w : World) (e : PyExn) :
  first_failure run = Some e →
  get_task_status task_id (snd (process_task sitemap_url task_id run w))
  = (Ok (JsonResponse {[ "status" := VStr "error"; "error" := VStr (str e) ]} 200),
     snd (process_task sitemap_url task_id run w))
  ∧ download_task_file task_id (snd (process_task sitemap_url task_id run w))
    = (Ok (JsonResponse {[ "error" := VStr "File not ready or task not found" ]} 404),
       snd (process_task sitemap_url task_id run w)).
Proof.
  intros Hfail.
  destruct (process_task_spec sitemap_url task_id run w)
    as (w1 & -> & Hnew & _ & Hnow & _ & _).
  cbn.
  assert (outcome_record run = error_record (str e)) as Hrec.
  { destruct (outcome_record_cases run) as [(e' & He' & ->)|(? & ? & Hnone & _)];
      congruence. }
  rewrite Hrec in Hnew.
  assert (live (cache w1) (now w1) task_id = Some (error_record (str e))) as Hl.
  { apply live_Some. eexists. split; [exact Hnew|]. cbn. split; [lia|done]. }
  split.
  - apply get_task_status_found; [done|]. intros Hempty.
    assert (error_record (str e) !! "status" = Some (VStr "error")) as Hs by reflexivity.
    unfold error_record in Hs. rewrite Hempty in Hs. by rewrite lookup_empty in Hs.
  - apply download_not_ready. intros rec. rewrite Hl. intros [= <-]. done.
Qed.

(** ** Strings: the file name offered and the stripping of the form *)

Lemma append_cons (x : ascii) (a b : string) : String x a ++ b = String x (a ++ b).
Proof. reflexivity. Qed.

Lemma append_assoc (a b c : string) : (a ++ b) ++ c = a ++ (b ++ c).
Proof.
  induction a as [|x a IH]; [done|]. by rewrite !append_cons, IH.
Qed.

Lemma append_nil_r (a : string) : a ++ "" = a.
Proof.
  induction a as [|x a IH]; [done|]. by rewrite append_cons, IH.
Qed.

Lemma has_slash_snoc acc c :
  has_slash acc = false → Ascii.eqb c "/"%char = false →
  has_slash (acc ++ String c "") = false.
Proof.
  intros Hacc Hc. induction acc as [|x acc IH].
  - change (has_slash (String c "") = false). cbn. by rewrite Hc.
  - rewrite append_cons. cbn in *.
    apply orb_false_iff in Hacc as [-> Hacc]. cbn. by apply IH.
Qed.

Lemma basename_from_split acc p :
  has_slash acc = false →
  ∃ dir, acc ++ p = dir ++ basename_from acc p
         ∧ has_slash (basename_from acc p) = false
         ∧ (dir = "" ∨ ∃ d, dir = d ++ "/").
Proof.
  revert acc. induction p as [|c p IH]; intros acc Hacc; cbn [basename_from].
  - exists "". rewrite append_nil_r. auto.
  - destruct (Ascii.eqb c "/"%char) eqn:Hc.
    + apply Ascii.eqb_eq in Hc as ->.
      destruct (IH "" eq_refl) as (dir & Heq & Hno & Hdir).
      change ("" ++ p) with p in Heq.
      remember (basename_from "" p) as name eqn:Hname. clear Hname.
      exists (acc ++ "/" ++ dir). split; [|split; [done|]].
      * rewrite Heq, append_assoc. reflexivity.
      * right. destruct Hdir as [->|[d ->]].
        -- exists acc. reflexivity.
        -- exists (acc ++ "/" ++ d). rewrite !append_assoc. reflexivity.
    + destruct (IH (acc ++ String c "") (has_slash_snoc _ _ Hacc Hc))
        as (dir & Heq & Hno & Hdir).
      exists dir. split; [|done]. rewrite <- Heq, append_assoc. reflexivity.
Qed.

(** The file name the download offers is the last component of the stored
    path: the path is a directory part, empty or ending in a slash,
    followed by a name without any slash, and the Content-Disposition
    header carries that name alone. *)
Theorem download_offers_last_component (path : string) :
  ∃ dir name,
    path = dir ++ name
    ∧ has_slash name = false
    ∧ (dir = "" ∨ ∃ d, dir = d ++ "/")
    ∧ content_disposition path
      = "attachment; filename=" ++ dquote ++ name ++ dquote.
Proof.
  destruct (basename_from_split "" path eq_refl) as (dir & Heq & Hno & Hdir).
  exists dir, (basename path). done.
Qed.

Lemma lstrip_all_space ws : all_space ws = true → lstrip ws = "".
Proof.
  induction ws as [|c ws IH]; cbn; [done|].
  intros [-> Hws]%andb_true_iff. by apply IH.
Qed.

Lemma rstrip_all_space ws : all_space ws = true → rstrip ws = "".
Proof.
  induction ws as [|c ws IH]; cbn; [done|].
  intros [-> Hws]%andb_true_iff. by rewrite IH.
Qed.

Lemma lstrip_pad ws s : all_space ws = true → lstrip (ws ++ s) = lstrip s.
Proof.
  induction ws as [|c ws IH]; [done|]. rewrite append_cons. cbn.
  intros [-> Hws]%andb_true_iff. by apply IH.
Qed.

Lemma rstrip_pad s ws : all_space ws = true → rstrip (s ++ ws) = rstrip s.
Proof.
  intros Hws. induction s as [|c s IH].
  - by apply rstrip_all_space.
  - rewrite append_cons. cbn. by rewrite IH.
Qed.

Lemma strip_pad_right s ws :
  all_space ws = true → rstrip (lstrip (s ++ ws)) = rstrip (lstrip s).
Proof.
  intros Hws. induction s as [|c s IH].
  - change ("" ++ ws) with ws. by rewrite (lstrip_all_space _ Hws).
  - rewrite append_cons. cbn [lstrip]. destruct (is_space c); [done|].
    rewrite <- append_cons. by apply rstrip_pad.
Qed.

(** [strip] does not see white space around its argument. *)
Lemma strip_pad wl s wr :
  all_space wl = true → all_space wr = true → strip (wl ++ s ++ wr) = strip s.
Proof.
  intros Hl Hr. unfold strip. rewrite lstrip_pad by done.
  by apply strip_pad_right.
Qed.

(** White space around the submitted URL does not matter to
    [clean_sitemap_url]: the padded value is cleaned to what the bare value
    is cleaned to.  And whatever the normalizer raises, the form only ever
    fails with the one message "Please enter a valid sitemap URL.". *)
Theorem clean_sitemap_url_ignores_padding
    (normalize_url : Json → PyResult string) (wl s wr : string) :
  all_space wl = true →
  all_space wr = true →
  clean_sitemap_url normalize_url (wl ++ s ++ wr) = clean_sitemap_url normalize_url s
  ∧ ∀ e, clean_sitemap_url normalize_url s = Raise e →
         e = ValidationError "Please enter a valid sitemap URL.".
Proof.
  intros Hl Hr. unfold clean_sitemap_url. rewrite strip_pad by done.
  split; [done|]. intros e.
  destruct (normalize_url (JStr (strip s))); [done|]. by intros [= <-].
Qed.

(** ** The form view *)

Section ViewProperties.

Variable json_loads : string → PyResult Json.
Variable normalize_url : Json → PyResult string.
Variable field_clean : option string → PyResult string.
Variable response_json : HttpResponse → PyResult (gmap string Val).

Local Abbreviation submit := (start_sitemap_processing json_loads normalize_url).
Local Abbreviation view :=
  (seo_head_checker json_loads normalize_url field_clean response_json).
Local Abbreviation valid := (is_valid normalize_url field_clean).

Lemma view_not_post request post u w :
  method request ≠ "POST" →
  view request post u w = (Ok (render (FormOnly UnboundForm)), w).
Proof.
  intros Hm. unfold seo_head_checker. by rewrite (bool_decide_eq_false_2 _ Hm).
Qed.

Lemma view_invalid request post u w :
  method request = "POST" → valid (BoundForm post) = false →
  view request post u w = (Ok (render (FormOnly (BoundForm post))), w).
Proof.
  intros Hm Hv. unfold seo_head_checker.
  by rewrite (bool_decide_eq_true_2 _ Hm), Hv.
Qed.

(** On a valid POST the view calls the submission handler once and turns
    its answer, or the exception of [response.json()], into a page. *)
Lemma view_valid request post u w r w' :
  method request = "POST" → valid (BoundForm post) = true →
  submit request u w = (Ok r, w') →
  view request post u w
  = (Ok (render
           match response_json r with
           | Ok d =>
               if bool_decide (status_code r = 202)
               then WithTask (BoundForm post) (d !! "task_id")
               else WithError (BoundForm post)
                      (default (VStr "Unexpected error.") (d !! "error"))
           | Raise e => WithError (BoundForm post) (VStr (str e))
           end), w').
Proof.
  intros Hm Hv Hs. unfold seo_head_checker.
  rewrite (bool_decide_eq_true_2 _ Hm), Hv.
  unfold try_except, bind at 1. rewrite Hs.
  case_bool_decide; unfold bind, call, ret;
    by destruct (response_json r).
Qed.

End ViewProperties.

(** The form view never ends with an exception, and what it does to the
    world is what the submission handler does when the request is a POST
    with a valid form, and nothing otherwise; how [response.json()]
    behaves makes no difference to the world. *)
Theorem form_view_effect
    (json_loads : string → PyResult Json) (normalize_url : Json → PyResult string)
    (field_clean : option string → PyResult string)
    (response_json : HttpResponse → PyResult (gmap string Val))
    (request : HttpRequest) (post : gmap string string) (u : string) (w : World) :
  ∃ page,
    seo_head_checker json_loads normalize_url field_clean response_json
      request post u w
    = (Ok page,
       if bool_decide (method request = "POST")
          && is_valid normalize_url field_clean (BoundForm post)
       then snd (start_sitemap_processing json_loads normalize_url request u w)
       else w).
Proof.
  case_bool_decide as Hm; cbn.
  - destruct (is_valid normalize_url field_clean (BoundForm post)) eqn:Hv.
    + destruct (submit_cases json_loads normalize_url request u w)
        as [(r & Hs & _)|(url & _ & _ & Hs)];
        rewrite (view_valid _ _ _ _ _ _ _ _ _ _ Hm Hv Hs), Hs; eauto.
    + rewrite view_invalid by done. eauto.
  - rewrite view_not_post by done. eauto.
Qed.

(** A request that is not a POST gets the empty form.  A POST whose
    field is refused by the field cleaning, or whose stripped value the
    normalizer refuses, gets its own form back.  In both cases the context
    has neither task identifier nor error, and no task is created. *)
Theorem form_view_without_submission
    (json_loads : string → PyResult Json) (normalize_url : Json → PyResult string)
    (field_clean : option string → PyResult string)
    (response_json : HttpResponse → PyResult (gmap string Val))
    (request : HttpRequest) (post : gmap string string) (u : string) (w : World) :
  (method request ≠ "POST" →
   seo_head_checker json_loads normalize_url field_clean response_json
     request post u w
   = (Ok (mkPage "projects/seo_head_checker.html" (FormOnly UnboundForm)), w))
  ∧ (method request = "POST" →
     ((∃ e, field_clean (post !! "sitemap_url") = Raise e)
      ∨ (∃ value e, field_clean (post !! "sitemap_url") = Ok value
                    ∧ normalize_url (JStr (strip value)) = Raise e)) →
     seo_head_checker json_loads normalize_url field_clean response_json
       request post u w
     = (Ok (mkPage "projects/seo_head_checker.html" (FormOnly (BoundForm post))), w)).
Proof.
  split.
  - apply view_not_post.
  - intros Hm Hbad. apply view_invalid; [done|].
    unfold is_valid, full_clean, clean_sitemap_url.
    destruct Hbad as [[e ->]|(value & e & -> & ->)]; done.
Qed.

(** On a POST with a valid form whose body yields a URL, the job pooled
    is for the URL of the JSON body, whatever the form field held.  The
    page shows the task identifier that [response.json()] returns; when
    [response.json()] raises instead, the page shows that error although
    the task has been created and its job pooled. *)
Theorem form_view_after_acceptance
    (json_loads : string → PyResult Json) (normalize_url : Json → PyResult string)
    (field_clean : option string → PyResult string)
    (response_json : HttpResponse → PyResult (gmap string Val))
    (request : HttpRequest) (post : gmap string string) (u : string) (w : World)
    (url : string) :
  method request = "POST" →
  is_valid normalize_url field_clean (BoundForm post) = true →
  requested_url json_loads normalize_url request = Ok url →
  ∃ page w',
    seo_head_checker json_loads normalize_url field_clean response_json
      request post u w = (Ok page, w')
    ∧ pool w' = (pool w ++ [mkJob u url])%list
    ∧ cache w' !! u = Some (mkEntry pending_record (now w + 1800))
    ∧ (∀ d, response_json (JsonResponse {[ "task_id" := VStr u ]} 202) = Ok d →
            context page = WithTask (BoundForm post) (d !! "task_id"))
    ∧ (∀ e, response_json (JsonResponse {[ "task_id" := VStr u ]} 202) = Raise e →
            context page = WithError (BoundForm post) (VStr (str e))).
Proof.
  intros Hm Hv Hr.
  pose proof (submit_accepted json_loads normalize_url request u w url Hm Hr) as Hs.
  rewrite (view_valid _ _ _ _ _ _ _ _ _ _ Hm Hv Hs).
  eexists _, _. split; [done|]. cbn [pool cache].
  split; [done|]. split; [apply lookup_insert_eq|].
  split; intros ? Hj; rewrite Hj; cbn; [|done].
  by rewrite bool_decide_eq_true_2.
Qed.


(** ** The further properties at sample inputs *)

Lemma submitted_world_reachable :
  reachable sample_json_loads sample_normalize_url submitted_world.
Proof.
  exists empty_world, [ESubmit sample_request "t1"]. split; [by repeat split|].
  vm_compute. reflexivity.
Qed.

Lemma status_returns_snapshot_witness :
  get_task_status "t1" completed_world
  = (Ok (JsonResponse (completed_record "/tmp/t1.csv") 200), completed_world).
Proof.
  apply (status_returns_snapshot sample_json_loads sample_normalize_url).
  - exact completed_world_reachable.
  - vm_compute. reflexivity.
Defined.

Lemma expired_task_is_invisible_witness :
  get_task_status "t1" expired_world
  = (Ok (JsonResponse {[ "error" := VStr "Task not found" ]} 404), expired_world)
  ∧ download_task_file "t1" expired_world
    = (Ok (JsonResponse {[ "error" := VStr "File not ready or task not found" ]} 404),
       expired_world)
  ∧ ∀ path, completed_record "/tmp/t1.csv" !! "file" = Some (VStr path) →
            fs (snd (download_task_file "t1" expired_world)) !! path
            = fs expired_world !! path.
Proof.
  apply (expired_task_is_invisible "t1" expired_world
           (mkEntry (completed_record "/tmp/t1.csv") 1800)).
  - vm_compute. reflexivity.
  - vm_compute. discriminate.
Defined.

Lemma records_expire_within_ttl_witness :
  (∀ k e, cache completed_world !! k = Some e →
          expires_at e ≤ now completed_world + 1800)
  ∧ ∀ task_id,
      get_task_status task_id
        (apply_event sample_json_loads sample_normalize_url (ETick 1800) completed_world)
      = (Ok (JsonResponse {[ "error" := VStr "Task not found" ]} 404),
         apply_event sample_json_loads sample_normalize_url (ETick 1800) completed_world).
Proof.
  apply (records_expire_within_ttl sample_json_loads sample_normalize_url
           completed_world 1800).
  - exact completed_world_reachable.
  - lia.
Defined.

Lemma other_tasks_untouched_witness :
  cache (apply_event sample_json_loads sample_normalize_url
           (ESubmit sample_request "t2") completed_world) !! "t1"
  = cache completed_world !! "t1".
Proof.
  apply (other_tasks_untouched sample_json_loads sample_normalize_url
           (ESubmit sample_request "t2") completed_world "t1").
  discriminate.
Defined.

Lemma job_runs_once_witness :
  ("t1" ∉ job_id <$> pool completed_world)
  ∧ (∀ j' run', job_id j' = "t1" → enabled (EFinish j' run') completed_world = false)
  ∧ (∀ j' p, job_id j' = "t1" → enabled (EProgress j' p) completed_world = false).
Proof.
  apply (job_runs_once sample_json_loads sample_normalize_url
           (apply_event sample_json_loads sample_normalize_url
              (EProgress sample_job 40) submitted_world)
           sample_job sample_run [] completed_world).
  - exists empty_world, [ESubmit sample_request "t1"; EProgress sample_job 40].
    split; [by repeat split|]. vm_compute. reflexivity.
  - vm_compute. apply list_elem_of_here.
  - reflexivity.
Defined.

Lemma malformed_body_is_rejected_witness :
  ∃ text,
    start_sitemap_processing sample_json_loads sample_normalize_url
      form_encoded_request "t1" empty_world
    = (Ok (JsonResponse {[ "error" := VStr text ]} 400), empty_world).
Proof.
  apply (malformed_body_is_rejected sample_json_loads sample_normalize_url
           form_encoded_request "t1" empty_world).
  - reflexivity.
  - left. eexists. reflexivity.
Defined.

Lemma finished_task_is_downloadable_witness :
  fst (download_task_file "t1"
         (with_now (now submitted_world + 60)
            (snd (process_task "https://example.com/sitemap.xml" "t1"
                    sample_run submitted_world))))
  = if bool_decide (60 < 1800)
    then Ok (mkResponse 200 "application/octet-stream"
               [("Content-Disposition", content_disposition "/tmp/t1.csv")]
               (FileContent [Byte.x75; Byte.x72; Byte.x6c]))
    else Ok (JsonResponse {[ "error" := VStr "File not ready or task not found" ]} 404).
Proof.
  apply (finished_task_is_downloadable "https://example.com/sitemap.xml" "t1"
           sample_run submitted_world "/tmp/t1.csv"
           [Byte.x75; Byte.x72; Byte.x6c] 60).
  - reflexivity.
  - reflexivity.
  - discriminate.
  - lia.
Defined.

Lemma failed_task_is_reported_witness :
  get_task_status "t1"
    (snd (process_task "https://example.com/sitemap.xml" "t1" refused_run
            submitted_world))
  = (Ok (JsonResponse
           {[ "status" := VStr "error"; "error" := VStr "Connection refused" ]} 200),
     snd (process_task "https://example.com/sitemap.xml" "t1" refused_run
            submitted_world))
  ∧ download_task_file "t1"
      (snd (process_task "https://example.com/sitemap.xml" "t1" refused_run
              submitted_world))
    = (Ok (JsonResponse {[ "error" := VStr "File not ready or task not found" ]} 404),
       snd (process_task "https://example.com/sitemap.xml" "t1" refused_run
              submitted_world)).
Proof.
  apply (failed_task_is_reported "https://example.com/sitemap.xml" "t1"
           refused_run submitted_world (Exn "ConnectionError" "Connection refused")).
  reflexivity.
Defined.

Lemma clean_sitemap_url_ignores_padding_witness :
  clean_sitemap_url sample_normalize_url ("  " ++ "example.com/sitemap.xml" ++ " ")
  = clean_sitemap_url sample_normalize_url "example.com/sitemap.xml"
  ∧ ∀ e, clean_sitemap_url sample_normalize_url "example.com/sitemap.xml" = Raise e →
         e = ValidationError "Please enter a valid sitemap URL.".
Proof.
  apply (clean_sitemap_url_ignores_padding sample_normalize_url
           "  " "example.com/sitemap.xml" " "); reflexivity.
Defined.

Lemma form_view_without_submission_witness :
  seo_head_checker sample_json_loads sample_normalize_url sample_field_clean
    sample_response_json get_request ∅ "t1" empty_world
  = (Ok (mkPage "projects/seo_head_checker.html" (FormOnly UnboundForm)), empty_world)
  ∧ seo_head_checker sample_json_loads sample_normalize_url sample_field_clean
      sample_response_json sample_request blank_post "t1" empty_world
    = (Ok (mkPage "projects/seo_head_checker.html" (FormOnly (BoundForm blank_post))),
       empty_world).
Proof.
  split.
  - apply (proj1 (form_view_without_submission sample_json_loads sample_normalize_url
                    sample_field_clean sample_response_json
                    get_request ∅ "t1" empty_world)).
    discriminate.
  - apply (proj2 (form_view_without_submission sample_json_loads sample_normalize_url
                    sample_field_clean sample_response_json
                    sample_request blank_post "t1" empty_world)).
    + reflexivity.
    + left. eexists. reflexivity.
Defined.

Lemma form_view_after_acceptance_witness :
  ∃ page w',
    seo_head_checker sample_json_loads sample_normalize_url sample_field_clean
      missing_response_json sample_request sample_post "t1" empty_world
    = (Ok page, w')
    ∧ pool w' = (pool empty_world ++ [mkJob "t1" "https://example.com/sitemap.xml"])%list
    ∧ cache w' !! "t1" = Some (mkEntry pending_record (now empty_world + 1800))
    ∧ (∀ d, missing_response_json (JsonResponse {[ "task_id" := VStr "t1" ]} 202) = Ok d →
            context page = WithTask (BoundForm sample_post) (d !! "task_id"))
    ∧ (∀ e, missing_response_json (JsonResponse {[ "task_id" := VStr "t1" ]} 202)
            = Raise e →
            context page = WithError (BoundForm sample_post) (VStr (str e))).
Proof.
  apply (form_view_after_acceptance sample_json_loads sample_normalize_url
           sample_field_clean missing_response_json
           sample_request sample_post "t1" empty_world
           "https://example.com/sitemap.xml"); reflexivity.
Defined.


(** As long as the job of a task waits in the pool, the record of the
    task is never completed or error: a status query then shows pending or
    processing, or finds nothing. *)
Theorem pooled_task_is_not_terminal
    (json_loads : string → PyResult Json) (normalize_url : Json → PyResult string)
    (w : World) (j : Job) (rec : gmap string Val) :
  reachable json_loads normalize_url w →
  j ∈ pool w →
  live (cache w) (now w) (job_id j) = Some rec →
  (status_of rec = Some Pending ∨ status_of rec = Some Processing)
  ∧ get_task_status (job_id j) w = (Ok (JsonResponse rec 200), w)
  ∧ download_task_file (job_id j) w
    = (Ok (JsonResponse {[ "error" := VStr "File not ready or task not found" ]} 404), w).
Proof.
  intros Hreach Hj Hl.
  pose proof (reachable_inv _ _ _ Hreach) as HI.
  pose proof Hl as Hl'.
  apply live_Some in Hl' as (e & Hc & _ & <-).
  destruct (inv_status w HI (job_id j) e Hc) as [s Hs].
  assert (terminal s = false) as Ht.
  { destruct (terminal s) eqn:Ht; [|done]. exfalso.
    eapply (inv_terminal w HI (job_id j) e s); [done..|].
    apply list_elem_of_fmap. eauto. }
  split; [|split].
  - rewrite Hs. destruct s; cbn in Ht; auto; done.
  - apply get_task_status_found; [done|]. intros Hempty.
    rewrite Hempty, status_of_empty in Hs. done.
  - apply download_not_ready. intros rec'. rewrite Hl. intros [= <-] Hcompleted.
    apply status_of_completed_field in Hcompleted.
    rewrite Hs in Hcompleted. injection Hcompleted as ->. done.
Qed.

Lemma pooled_task_is_not_terminal_witness :
  (status_of pending_record = Some Pending ∨ status_of pending_record = Some Processing)
  ∧ get_task_status "t1" submitted_world
    = (Ok (JsonResponse pending_record 200), submitted_world)
  ∧ download_task_file "t1" submitted_world
    = (Ok (JsonResponse {[ "error" := VStr "File not ready or task not found" ]} 404),
       submitted_world).
Proof.
  apply (pooled_task_is_not_terminal sample_json_loads sample_normalize_url
           submitted_world sample_job pending_record).
  - exact submitted_world_reachable.
  - vm_compute. apply list_elem_of_here.
  - vm_compute. reflexivity.
Defined.
